(** * Smart Product Assistant, web client

    A shallow embedding of the client's logic: the HTTP wrapper of
    [services/api.ts], the reducer of [context/AuthContext.tsx], and the
    state handling of the [SearchBar], [LoadingSpinner] and [App]
    components, with the properties the specification states about them.

    Conventions.
    - A JavaScript [string] is a Rocq [string] (its UTF-8 bytes), except in
      [SearchBar], where [trim] depends on code units and a string is the
      list of its UTF-16 code units.
    - A JavaScript [number] is modelled by the integers: ids, filter bounds
      and prices are carried around, tested for truthiness and printed by
      [toString], and on integer values in the safe range [toString] is the
      decimal rendering.
    - An optional field or argument ([x?: T], [T | null], [T | undefined])
      is an [option].
    - An awaited promise is its outcome, [Resolved] or [Rejected]; [await]
      inside an [async] function is [andThen]. *)

From Stdlib Require Import String Ascii List ZArith NArith Bool Lia.
From Stdlib Require Import DecimalString DecimalZ DecimalPos.
Import ListNotations.
Open Scope string_scope.

(* ================================================================== *)
(** ** JavaScript values *)

Module Js.

Definition number := Z.

(** [Number.prototype.toString] on an integer value. *)
Definition number_toString (n : number) : string :=
  NilZero.string_of_int (Z.to_int n).

(** Reading a decimal numeral back, the inverse of [number_toString]. *)
Definition number_parse (s : string) : option number :=
  option_map Z.of_int (NilZero.int_of_string s).

(** Truthiness, as tested by [if (x)], [x && ...], [x || ...] and [!x]. *)
Definition truthy_string (s : string) : bool := negb (s =? "").
Definition truthy_number (n : number) : bool := negb (n =? 0)%Z.

(** Truthiness of an optional value: [undefined] is falsy, a present value
    is tested by [t]. *)
Definition truthy_opt {A : Type} (t : A -> bool) (o : option A) : bool :=
  match o with
  | Some a => t a
  | None => false
  end.

(** Values that were thrown and caught: [catch (err)] binds an [unknown].
    [axios.isAxiosError] holds of the first constructor only. *)
Record ErrorBody := { body_message : option string }.

Record ErrorResponse := {
  status : Z;
  data : option ErrorBody
}.

Record AxiosError := {
  response : option ErrorResponse;
  code : option string
}.

Inductive thrown :=
| Axios (e : AxiosError)
| OtherError (description : string)
| ThrownNull
| ThrownUndefined.

(** The outcome of an awaited promise. *)
Inductive Promise (A : Type) :=
| Resolved (a : A)
| Rejected (e : thrown).

Arguments Resolved {A} a.
Arguments Rejected {A} e.

(** [const x = await p; k x] inside an [async] function. *)
Definition andThen {A B : Type} (p : Promise A) (k : A -> Promise B) : Promise B :=
  match p with
  | Resolved a => k a
  | Rejected e => Rejected e
  end.

(** [try { const x = await p; return ok x } catch { return handler }] *)
Definition tryCatch {A B : Type} (p : Promise A) (ok : A -> B) (handler : thrown -> B)
  : Promise B :=
  match p with
  | Resolved a => Resolved (ok a)
  | Rejected e => Resolved (handler e)
  end.

End Js.

Notation "x <- p ;; k" := (Js.andThen p (fun x => k))
  (at level 61, p at next level, right associativity).

(* ================================================================== *)
(** ** services/api.ts *)

Module Api.

Import Js.

(** [Record<string, unknown>], kept as the list of its entries with the
    values as JSON text. *)
Definition JsonRecord := list (string * string).

Record BackendProduct := {
  bp_id : number;
  bp_name : string;
  bp_description : string;
  bp_price : number;
  bp_category : string;
  bp_imageUrl : string;
  bp_attributes : JsonRecord;
  bp_createdAt : string;
  bp_updatedAt : string;
  bp_ai_explanation : option string;
  bp_ai_relevance_score : option number
}.

(** [Product] of [components/ProductCard.tsx]. *)
Record Product := {
  id : string;
  name : string;
  price : number;
  description : string;
  image : string;
  currency : option string;
  aiExplanation : option string
}.

Definition transformProduct (backendProduct : BackendProduct) : Product :=
  {| id := number_toString (bp_id backendProduct);
     name := bp_name backendProduct;
     price := bp_price backendProduct;
     description := bp_description backendProduct;
     image := bp_imageUrl backendProduct;
     currency := Some "USD";
     aiExplanation := bp_ai_explanation backendProduct |}.

Record BackendResponse (T : Type) := {
  br_success : bool;
  br_count : option number;
  br_data : T;
  br_message : option string
}.

Arguments br_success {T} _.
Arguments br_count {T} _.
Arguments br_data {T} _.
Arguments br_message {T} _.

Record Pagination := {
  pg_page : number;
  pg_limit : number;
  pg_total : number;
  pg_totalPages : number;
  pg_hasNextPage : bool;
  pg_hasPrevPage : bool
}.

Record SearchResponse := {
  sr_success : bool;
  sr_query : string;
  sr_results : list BackendProduct;
  sr_filters : JsonRecord;
  sr_sortBy : string;
  sr_pagination : Pagination;
  sr_total_results : number;
  sr_execution_time_ms : number
}.

Record SearchFilters := {
  category : option string;
  brand : option string;
  minPrice : option number;
  maxPrice : option number;
  attributes : option JsonRecord
}.

(** The string literal union of [SearchOptions['sortBy']]. *)
Inductive SortBy :=
| relevance | price_asc | price_desc | name_asc | name_desc | newest | oldest.

Definition SortBy_literal (s : SortBy) : string :=
  match s with
  | relevance => "relevance"
  | price_asc => "price_asc"
  | price_desc => "price_desc"
  | name_asc => "name_asc"
  | name_desc => "name_desc"
  | newest => "newest"
  | oldest => "oldest"
  end.

Record SearchOptions := {
  so_query : string;
  so_filters : option SearchFilters;
  so_sortBy : option SortBy;
  so_page : option number;
  so_limit : option number
}.

(** The response of the axios instance, as far as the callers read it:
    [response.data]. *)
Record AxiosResponse (T : Type) := { ar_status : Z; ar_data : T }.

Arguments ar_status {T} _.
Arguments ar_data {T} _.

(** The axios instance [api], one entry per typed use [api.get<T>(url)] and
    [api.post<T>(url, body)]. The interceptors only log and pass the response
    or the error on, so an entry is the outcome the caller awaits. *)
Record Instance := {
  get_products : string -> Promise (AxiosResponse (BackendResponse (list BackendProduct)));
  get_product : string -> Promise (AxiosResponse (BackendResponse BackendProduct));
  post_search : string -> SearchOptions -> Promise (AxiosResponse SearchResponse);
  get_any : string -> Promise (AxiosResponse unit)
}.

(** *** URLSearchParams *)

(** The list of name-value pairs, in the order of [append]. *)
Definition URLSearchParams := list (string * string).

Definition append (params : URLSearchParams) (name value : string) : URLSearchParams :=
  (params ++ [(name, value)])%list.

Definition hex_digit (n : N) : ascii :=
  match String.get (N.to_nat n) "0123456789ABCDEF" with
  | Some c => c
  | None => "0"%char
  end.

(** Bytes the application/x-www-form-urlencoded serializer leaves as they
    are: ASCII alphanumerics and [*], [-], [.], [_]. *)
Definition urlencoded_plain (b : N) : bool :=
  ((48 <=? b) && (b <=? 57) || (65 <=? b) && (b <=? 90) || (97 <=? b) && (b <=? 122)
   || (b =? 42) || (b =? 45) || (b =? 46) || (b =? 95))%N.

Definition urlencode_byte (c : ascii) : string :=
  let b := N_of_ascii c in
  if urlencoded_plain b then String c ""
  else if (b =? 32)%N then "+"
  else String "%"%char (String (hex_digit (b / 16)) (String (hex_digit (b mod 16)) "")).

Fixpoint urlencode (s : string) : string :=
  match s with
  | EmptyString => ""
  | String c rest => urlencode_byte c ++ urlencode rest
  end.

Definition serialize_pair (p : string * string) : string :=
  urlencode (fst p) ++ "=" ++ urlencode (snd p).

(** [params.toString()] *)
Definition URLSearchParams_toString (params : URLSearchParams) : string :=
  String.concat "&" (map serialize_pair params).

(** *** productApi *)

(** [if (filters?.field) params.append(name, render filters.field)] *)
Definition append_if {A : Type} (t : A -> bool) (render : A -> string)
  (name : string) (field : option A) (params : URLSearchParams) : URLSearchParams :=
  match field with
  | Some v => if t v then append params name (render v) else params
  | None => params
  end.

(** [filters?.field] *)
Definition optional_field {A : Type} (filters : option SearchFilters)
  (field : SearchFilters -> option A) : option A :=
  match filters with
  | Some f => field f
  | None => None
  end.

Definition getAllProducts_params (filters : option SearchFilters) (sortBy : option SortBy)
  : URLSearchParams :=
  let params := [] in
  let params := append_if truthy_string (fun s => s) "category"
                  (optional_field filters category) params in
  let params := append_if truthy_string (fun s => s) "brand"
                  (optional_field filters brand) params in
  let params := append_if truthy_number number_toString "minPrice"
                  (optional_field filters minPrice) params in
  let params := append_if truthy_number number_toString "maxPrice"
                  (optional_field filters maxPrice) params in
  match sortBy with
  | Some s =>
      if truthy_string (SortBy_literal s) && negb (SortBy_literal s =? "relevance")
      then append params "sortBy" (SortBy_literal s)
      else params
  | None => params
  end.

(** What the [sortBy] line of [getAllProducts] appends. *)
Definition sortBy_entry (sortBy : option SortBy) : URLSearchParams :=
  match sortBy with
  | Some k => if truthy_string (SortBy_literal k) && negb (SortBy_literal k =? "relevance")
              then [("sortBy", SortBy_literal k)] else []
  | None => []
  end.

Definition getAllProducts_url (filters : option SearchFilters) (sortBy : option SortBy)
  : string :=
  let params := getAllProducts_params filters sortBy in
  if truthy_string (URLSearchParams_toString params)
  then "/products?" ++ URLSearchParams_toString params
  else "/products".

Definition getAllProducts (api : Instance) (filters : option SearchFilters)
  (sortBy : option SortBy) : Promise (list Product) :=
  response <- get_products api (getAllProducts_url filters sortBy) ;;
  Resolved (map transformProduct (br_data (ar_data response))).

(** [encodeURIComponent]: unreserved bytes are ASCII alphanumerics and
    [- _ . ! ~ * ' ( )]; every other byte is percent-encoded. *)
Definition uricomponent_plain (b : N) : bool :=
  ((48 <=? b) && (b <=? 57) || (65 <=? b) && (b <=? 90) || (97 <=? b) && (b <=? 122)
   || (b =? 45) || (b =? 95) || (b =? 46) || (b =? 33) || (b =? 126)
   || (b =? 42) || (b =? 39) || (b =? 40) || (b =? 41))%N.

Fixpoint encodeURIComponent (s : string) : string :=
  match s with
  | EmptyString => ""
  | String c rest =>
      let b := N_of_ascii c in
      (if uricomponent_plain b then String c ""
       else String "%"%char (String (hex_digit (b / 16)) (String (hex_digit (b mod 16)) "")))
      ++ encodeURIComponent rest
  end.

Definition searchProducts (api : Instance) (query : string) : Promise (list Product) :=
  response <- get_products api ("/products/search?q=" ++ encodeURIComponent query) ;;
  Resolved (map transformProduct (br_data (ar_data response))).

Definition aiSearch (api : Instance) (options : SearchOptions) : Promise (list Product) :=
  response <- post_search api "/search" options ;;
  Resolved (map transformProduct (sr_results (ar_data response))).

Definition getProductById (api : Instance) (id : string) : Promise Product :=
  response <- get_product api ("/products/" ++ id) ;;
  Resolved (transformProduct (br_data (ar_data response))).

Definition getProductsByCategory (api : Instance) (category : string)
  : Promise (list Product) :=
  response <- get_products api ("/products/category/" ++ category) ;;
  Resolved (map transformProduct (br_data (ar_data response))).

Definition getFeaturedProducts (api : Instance) : Promise (list Product) :=
  response <- get_products api "/products/featured" ;;
  Resolved (map transformProduct (br_data (ar_data response))).

(** *** apiUtils *)

Definition healthCheck (api : Instance) : Promise bool :=
  tryCatch (get_any api "/health") (fun _ => true) (fun _ => false).

Definition NOT_FOUND := "The requested resource was not found.".
Definition SERVER_ERROR := "Server error occurred. Please try again later.".
Definition TIMED_OUT := "Request timed out. Please check your connection.".
Definition NETWORK_ERROR := "Network error. Please check your internet connection.".
Definition UNEXPECTED := "An unexpected error occurred. Please try again.".

(** [error.response?.status] *)
Definition response_status (e : AxiosError) : option Z :=
  match response e with
  | Some r => Some (status r)
  | None => None
  end.

(** [error.response?.data?.message] *)
Definition response_message (e : AxiosError) : option string :=
  match response e with
  | Some r =>
      match data r with
      | Some d => body_message d
      | None => None
      end
  | None => None
  end.

(** [x === n] for an optional number [x] and a number literal [n]. *)
Definition strict_eq_number (x : option Z) (n : Z) : bool :=
  match x with
  | Some v => (v =? n)%Z
  | None => false
  end.

(** [x === s] for an optional string [x] and a string literal [s]. *)
Definition strict_eq_string (x : option string) (s : string) : bool :=
  match x with
  | Some v => v =? s
  | None => false
  end.

Definition getErrorMessage (error : thrown) : string :=
  match error with
  | Axios e =>
      if strict_eq_number (response_status e) 404 then NOT_FOUND
      else if strict_eq_number (response_status e) 500 then SERVER_ERROR
      else if strict_eq_string (code e) "ECONNABORTED" then TIMED_OUT
      else if strict_eq_string (code e) "ERR_NETWORK" then NETWORK_ERROR
      else match response_message e with
           | Some m => if truthy_string m then m else UNEXPECTED
           | None => UNEXPECTED
           end
  | _ => UNEXPECTED
  end.

(** The clause of the error mapping for backend messages, read literally:
    past the status and code checks, a body that carries a message has that
    message returned. *)
Definition message_clause_as_stated : Prop :=
  forall (e : AxiosError) (m : string),
    response_status e <> Some 404%Z ->
    response_status e <> Some 500%Z ->
    code e <> Some "ECONNABORTED" ->
    code e <> Some "ERR_NETWORK" ->
    response_message e = Some m ->
    getErrorMessage (Axios e) = m.

(** The last sentence of the query-string property, read literally, at the
    lower price bound: a bound that is present has its parameter in the
    request. *)
Definition present_bound_as_stated : Prop :=
  forall (filters : SearchFilters) (sortBy : option SortBy) (n : number),
    minPrice filters = Some n ->
    In ("minPrice", number_toString n) (getAllProducts_params (Some filters) sortBy).

End Api.


(* ================================================================== *)
(** ** context/AuthContext.tsx *)

Module Auth.

Import Js.

Record Preferences := {
  searchHistoryLimit : number;
  popularSearchesLimit : number;
  theme : string
}.

Record User := {
  user_id : number;
  username : string;
  email : string;
  firstName : option string;
  lastName : option string;
  preferences : Preferences
}.

Record AuthState := {
  user : option User;
  isAuthenticated : bool;
  isLoading : bool;
  error : option string
}.

(** The four actions of [AuthAction], and [UNKNOWN] for an action object
    whose [type] is none of the four literals, which the reducer's [default]
    branch receives. *)
Inductive AuthAction :=
| SET_LOADING (payload : bool)
| SET_USER (payload : option User)
| SET_ERROR (payload : option string)
| LOGOUT
| UNKNOWN (type : string).

Definition initialState : AuthState :=
  {| user := None;
     isAuthenticated := false;
     isLoading := true;
     error := None |}.

(** A [User] is an object, and every object is truthy. *)
Definition truthy_user (_ : User) : bool := true.

Definition authReducer (state : AuthState) (action : AuthAction) : AuthState :=
  match action with
  | SET_LOADING payload =>
      {| user := user state;
         isAuthenticated := isAuthenticated state;
         isLoading := payload;
         error := error state |}
  | SET_USER payload =>
      {| user := payload;
         isAuthenticated := negb (negb (truthy_opt truthy_user payload));
         isLoading := false;
         error := None |}
  | SET_ERROR payload =>
      {| user := user state;
         isAuthenticated := isAuthenticated state;
         isLoading := false;
         error := payload |}
  | LOGOUT =>
      {| user := None;
         isAuthenticated := false;
         isLoading := false;
         error := None |}
  | UNKNOWN _ => state
  end.

(** The states the provider can be in: [useReducer(authReducer, initialState)]
    and one reducer step per [dispatch]. *)
Inductive reachable : AuthState -> Prop :=
| reachable_initial : reachable initialState
| reachable_dispatch state action :
    reachable state -> reachable (authReducer state action).

(** [user !== null] *)
Definition not_null {A : Type} (o : option A) : bool :=
  match o with
  | Some _ => true
  | None => false
  end.

End Auth.

(* ================================================================== *)
(** ** components/SearchBar.tsx *)

Module SearchBar.

(** The input's value as the list of its UTF-16 code units. *)
Definition code_unit := N.
Definition jsstring := list code_unit.

(** WhiteSpace and LineTerminator of ECMAScript, the code points that
    [String.prototype.trim] strips: TAB, LF, VT, FF, CR, SP, NBSP, U+1680,
    U+2000 to U+200A, LS, PS, U+202F, U+205F, U+3000 and the BOM. All of
    them are single code units. *)
Definition isWhiteSpace (c : code_unit) : bool :=
  ((9 <=? c) && (c <=? 13) || (c =? 32) || (c =? 160) || (c =? 5760)
   || (8192 <=? c) && (c <=? 8202) || (c =? 8232) || (c =? 8233)
   || (c =? 8239) || (c =? 8287) || (c =? 12288) || (c =? 65279))%N.

Fixpoint trimStart (s : jsstring) : jsstring :=
  match s with
  | [] => []
  | c :: rest => if isWhiteSpace c then trimStart rest else s
  end.

Definition trimEnd (s : jsstring) : jsstring := rev (trimStart (rev s)).

Definition trim (s : jsstring) : jsstring := trimEnd (trimStart s).

(** A string is truthy when it is not empty. *)
Definition truthy (s : jsstring) : bool :=
  match s with
  | [] => false
  | _ :: _ => true
  end.

Record State := {
  query : jsstring;
  focused : bool
}.

Definition initialState : State := {| query := []; focused := false |}.

(** [handleInputChange]: [setQuery(e.target.value)] *)
Definition handleInputChange (state : State) (value : jsstring) : State :=
  {| query := value; focused := focused state |}.

(** [handleSubmit], as the list of the arguments [onSearch] is called with,
    in the order of the calls. The component's state is not touched. *)
Definition handleSubmit (state : State) : list jsstring :=
  if truthy (trim (query state)) then [trim (query state)] else [].

(** The [disabled] prop of the submit button: [!query.trim()] *)
Definition submit_disabled (state : State) : bool :=
  negb (truthy (trim (query state))).

End SearchBar.

(* ================================================================== *)
(** ** components/LoadingSpinner.tsx *)

Module LoadingSpinner.

Import Js.

(** [displayMessage], with [null] as [None]. *)
Definition displayMessage (message : option string) : option string :=
  match message with
  | None => Some "Loading..."
  | Some m => if m =? "" then None else Some m
  end.

(** What [{displayMessage && <Typography>{displayMessage}</Typography>}]
    shows: the text of the element, or nothing. *)
Definition rendered_message (message : option string) : option string :=
  match displayMessage message with
  | Some m => if truthy_string m then Some m else None
  | None => None
  end.

End LoadingSpinner.

(* ================================================================== *)
(** ** App.tsx *)

Module App.

Import Js Api.

(** The [useState] cells of [App]. *)
Record AppState := {
  products : list Product;
  isLoading : bool;
  isFilteringOrSorting : bool;
  error : option string;
  searchQuery : string;
  currentTab : number;
  selectedProduct : option Product;
  isDetailViewOpen : bool;
  filters : SearchFilters;
  sortBy : option SortBy
}.

Definition noFilters : SearchFilters :=
  {| category := None; brand := None; minPrice := None; maxPrice := None;
     attributes := None |}.

Definition initialState : AppState :=
  {| products := [];
     isLoading := true;
     isFilteringOrSorting := false;
     error := None;
     searchQuery := "";
     currentTab := 0%Z;
     selectedProduct := None;
     isDetailViewOpen := false;
     filters := noFilters;
     sortBy := Some relevance |}.

(** The setters: each replaces its own cell. *)
Definition setProducts (v : list Product) (s : AppState) : AppState :=
  {| products := v; isLoading := isLoading s;
     isFilteringOrSorting := isFilteringOrSorting s; error := error s;
     searchQuery := searchQuery s; currentTab := currentTab s;
     selectedProduct := selectedProduct s; isDetailViewOpen := isDetailViewOpen s;
     filters := filters s; sortBy := sortBy s |}.

Definition setIsLoading (v : bool) (s : AppState) : AppState :=
  {| products := products s; isLoading := v;
     isFilteringOrSorting := isFilteringOrSorting s; error := error s;
     searchQuery := searchQuery s; currentTab := currentTab s;
     selectedProduct := selectedProduct s; isDetailViewOpen := isDetailViewOpen s;
     filters := filters s; sortBy := sortBy s |}.

Definition setIsFilteringOrSorting (v : bool) (s : AppState) : AppState :=
  {| products := products s; isLoading := isLoading s;
     isFilteringOrSorting := v; error := error s;
     searchQuery := searchQuery s; currentTab := currentTab s;
     selectedProduct := selectedProduct s; isDetailViewOpen := isDetailViewOpen s;
     filters := filters s; sortBy := sortBy s |}.

Definition setError (v : option string) (s : AppState) : AppState :=
  {| products := products s; isLoading := isLoading s;
     isFilteringOrSorting := isFilteringOrSorting s; error := v;
     searchQuery := searchQuery s; currentTab := currentTab s;
     selectedProduct := selectedProduct s; isDetailViewOpen := isDetailViewOpen s;
     filters := filters s; sortBy := sortBy s |}.

Definition setSearchQuery (v : string) (s : AppState) : AppState :=
  {| products := products s; isLoading := isLoading s;
     isFilteringOrSorting := isFilteringOrSorting s; error := error s;
     searchQuery := v; currentTab := currentTab s;
     selectedProduct := selectedProduct s; isDetailViewOpen := isDetailViewOpen s;
     filters := filters s; sortBy := sortBy s |}.

Definition setFilters (v : SearchFilters) (s : AppState) : AppState :=
  {| products := products s; isLoading := isLoading s;
     isFilteringOrSorting := isFilteringOrSorting s; error := error s;
     searchQuery := searchQuery s; currentTab := currentTab s;
     selectedProduct := selectedProduct s; isDetailViewOpen := isDetailViewOpen s;
     filters := v; sortBy := sortBy s |}.

Definition setSortBy (v : option SortBy) (s : AppState) : AppState :=
  {| products := products s; isLoading := isLoading s;
     isFilteringOrSorting := isFilteringOrSorting s; error := error s;
     searchQuery := searchQuery s; currentTab := currentTab s;
     selectedProduct := selectedProduct s; isDetailViewOpen := isDetailViewOpen s;
     filters := filters s; sortBy := v |}.

(** The arguments of one call of [handleSearch]; [isFilterOperation]
    defaults to [false] at the call sites that leave it out. *)
Record SearchCall := {
  query : string;
  newFilters : option SearchFilters;
  newSortBy : option SortBy;
  isFilterOperation : bool
}.

(** A filters object is truthy; a sort key is a string literal. *)
Definition truthy_filters (_ : SearchFilters) : bool := true.
Definition truthy_sortBy (s : SortBy) : bool := truthy_string (SortBy_literal s).

(** [raise] and [lower] are the two [if (isFilterOperation)] blocks, at the
    top of [try] and in [finally]. *)
Definition raise_flag (call : SearchCall) (s : AppState) : AppState :=
  if isFilterOperation call then setIsFilteringOrSorting true s
  else setIsLoading true s.

Definition lower_flag (call : SearchCall) (s : AppState) : AppState :=
  if isFilterOperation call then setIsFilteringOrSorting false s
  else setIsLoading false s.

(** The [searchOptions] object; [filters] and [sortBy] are the cells as the
    handler sees them. *)
Definition searchOptions (s : AppState) (call : SearchCall) : SearchOptions :=
  let searchFilters :=
    if truthy_opt truthy_filters (newFilters call)
    then newFilters call else Some (filters s) in
  let searchSort :=
    if truthy_opt truthy_sortBy (newSortBy call)
    then newSortBy call else sortBy s in
  {| so_query := query call;
     so_filters := searchFilters;
     so_sortBy := searchSort;
     so_page := Some 1%Z;
     so_limit := Some 50%Z |}.

(** [handleSearch] up to its [await]: the part that runs when the handler is
    called. *)
Definition handleSearch_begin (s : AppState) (call : SearchCall) : AppState :=
  let s := raise_flag call s in
  let s := setError None s in
  setSearchQuery (query call) s.

(** [handleSearch] from its [await] on: the part that runs when the promise
    of [productApi.aiSearch] settles, on the state of that moment. *)
Definition handleSearch_settle (call : SearchCall) (outcome : Promise (list Product))
  (s : AppState) : AppState :=
  let s :=
    match outcome with
    | Resolved recommendedProducts =>
        let s := setProducts recommendedProducts s in
        let s := match newFilters call with
                 | Some f => if truthy_filters f then setFilters f s else s
                 | None => s
                 end in
        match newSortBy call with
        | Some k => if truthy_sortBy k then setSortBy (Some k) s else s
        | None => s
        end
    | Rejected err => setError (Some (getErrorMessage err)) s
    end in
  lower_flag call s.

(** One call of [handleSearch] with nothing else happening in between. *)
Definition handleSearch (api : Instance) (s : AppState) (call : SearchCall) : AppState :=
  handleSearch_settle call (aiSearch api (searchOptions s call)) (handleSearch_begin s call).

(** The event loop, as far as searches go: a handler is called, or the
    promise of an earlier call settles. Nothing cancels a call that was
    issued. *)
Inductive event :=
| Issue (call : SearchCall)
| Arrive (call : SearchCall) (outcome : Promise (list Product)).

Definition step (s : AppState) (ev : event) : AppState :=
  match ev with
  | Issue call => handleSearch_begin s call
  | Arrive call outcome => handleSearch_settle call outcome s
  end.

Definition run (s : AppState) (evs : list event) : AppState := fold_left step evs s.

(** Two overlapping calls, both answered with products, the answers
    arriving in the order of the calls or in the opposite order. *)
Definition in_order (first second : SearchCall) (r1 r2 : list Product) : list event :=
  [Issue first; Issue second; Arrive first (Resolved r1); Arrive second (Resolved r2)].

Definition out_of_order (first second : SearchCall) (r1 r2 : list Product) : list event :=
  [Issue first; Issue second; Arrive second (Resolved r2); Arrive first (Resolved r1)].

(** "The request issued last wins, whatever the order of the answers",
    read literally. *)
Definition last_issued_wins_as_stated : Prop :=
  forall (s : AppState) (first second : SearchCall) (r1 r2 : list Product),
    products (run s (in_order first second r1 r2)) = r2
    /\ products (run s (out_of_order first second r1 r2)) = r2.







End App.

(* ================================================================== *)
(** ** Concrete inputs *)

Module Examples.

Import Js Api.

(** A 400 response whose body carries the empty message. *)
Definition empty_message_error : AxiosError :=
  {| response := Some {| status := 400%Z; data := Some {| body_message := Some "" |} |};
     code := None |}.

(** A 400 response with a validation message. *)
Definition validation_error : AxiosError :=
  {| response :=
       Some {| status := 400%Z;
               data := Some {| body_message := Some "Query is required" |} |};
     code := None |}.

(** A 404 response that also has a code and a message. *)
Definition not_found_error : AxiosError :=
  {| response :=
       Some {| status := 404%Z;
               data := Some {| body_message := Some "Product not found" |} |};
     code := Some "ERR_NETWORK" |}.

Definition timeout_error : AxiosError :=
  {| response := None; code := Some "ECONNABORTED" |}.

Definition headphones : BackendProduct :=
  {| bp_id := 42%Z;
     bp_name := "Wireless headphones";
     bp_description := "Over-ear, noise cancelling";
     bp_price := 149%Z;
     bp_category := "Electronics";
     bp_imageUrl := "https://example.com/headphones.jpg";
     bp_attributes := [("brand", "Sony")];
     bp_createdAt := "2024-01-01T00:00:00Z";
     bp_updatedAt := "2024-02-01T00:00:00Z";
     bp_ai_explanation := Some "Matches the budget";
     bp_ai_relevance_score := Some 9%Z |}.

(** The same product as the backend would send it from another table row:
    the fields the client drops differ. *)
Definition headphones_restocked : BackendProduct :=
  {| bp_id := 42%Z;
     bp_name := "Wireless headphones";
     bp_description := "Over-ear, noise cancelling";
     bp_price := 149%Z;
     bp_category := "Audio";
     bp_imageUrl := "https://example.com/headphones.jpg";
     bp_attributes := [];
     bp_createdAt := "2024-03-01T00:00:00Z";
     bp_updatedAt := "2024-03-02T00:00:00Z";
     bp_ai_explanation := Some "Matches the budget";
     bp_ai_relevance_score := None |}.

Definition laptop : BackendProduct :=
  {| bp_id := 7%Z;
     bp_name := "Gaming laptop";
     bp_description := "RTX graphics";
     bp_price := 1999%Z;
     bp_category := "Electronics";
     bp_imageUrl := "https://example.com/laptop.jpg";
     bp_attributes := [];
     bp_createdAt := "2024-01-05T00:00:00Z";
     bp_updatedAt := "2024-01-05T00:00:00Z";
     bp_ai_explanation := None;
     bp_ai_relevance_score := None |}.

(** Filters with a zero lower bound and nothing else. *)
Definition free_and_up : SearchFilters :=
  {| category := None; brand := None; minPrice := Some 0%Z; maxPrice := None;
     attributes := None |}.

Definition nike_under_250 : SearchFilters :=
  {| category := None; brand := Some "Nike"; minPrice := None; maxPrice := Some 250%Z;
     attributes := None |}.

Definition first_search : App.SearchCall :=
  {| App.query := "laptop"; App.newFilters := None; App.newSortBy := None;
     App.isFilterOperation := false |}.

Definition second_search : App.SearchCall :=
  {| App.query := "headphones"; App.newFilters := None; App.newSortBy := None;
     App.isFilterOperation := false |}.

Definition first_results : list Product := [transformProduct laptop].
Definition second_results : list Product := [transformProduct headphones].

(** A backend that is down: every request is rejected with a timeout. *)
Definition backend_down : Instance :=
  {| get_products := fun _ => Rejected (Axios timeout_error);
     get_product := fun _ => Rejected (Axios timeout_error);
     post_search := fun _ _ => Rejected (Axios timeout_error);
     get_any := fun _ => Rejected (Axios timeout_error) |}.

(** A backend that answers every product request with the same two rows. *)
Definition two_rows : AxiosResponse (BackendResponse (list BackendProduct)) :=
  {| ar_status := 200%Z;
     ar_data := {| br_success := true; br_count := Some 2%Z;
                   br_data := [headphones; laptop]; br_message := None |} |}.

Definition backend_up : Instance :=
  {| get_products := fun _ => Resolved two_rows;
     get_product := fun _ =>
       Resolved {| ar_status := 200%Z;
                   ar_data := {| br_success := true; br_count := None;
                                 br_data := headphones; br_message := None |} |};
     post_search := fun _ options =>
       Resolved {| ar_status := 200%Z;
                   ar_data := {| sr_success := true;
                                 sr_query := so_query options;
                                 sr_results := [headphones; laptop];
                                 sr_filters := [];
                                 sr_sortBy := "relevance";
                                 sr_pagination :=
                                   {| pg_page := 1%Z; pg_limit := 50%Z; pg_total := 2%Z;
                                      pg_totalPages := 1%Z; pg_hasNextPage := false;
                                      pg_hasPrevPage := false |};
                                 sr_total_results := 2%Z;
                                 sr_execution_time_ms := 12%Z |} |};
     get_any := fun _ => Resolved {| ar_status := 200%Z; ar_data := tt |} |}.




End Examples.

(* ================================================================== *)
(** ** services/api.ts: search history, and reading URLs *)

Module SearchHistoryApi.

Import Js Api.

Record SearchHistoryItem := {
  sh_id : number;
  sh_query : string;
  sh_resultsCount : number;
  sh_executionTimeMs : number;
  sh_success : bool;
  sh_errorType : option string;
  sh_filters : JsonRecord;
  sh_sortBy : option string;
  sh_createdAt : string;
  sh_updatedAt : string
}.

Record SearchHistoryResponse := {
  shr_success : bool;
  shr_data : list SearchHistoryItem;
  shr_pagination : Pagination
}.

Record PopularSearchItem := {
  ps_query : string;
  ps_searchCount : string
}.

Record PopularSearchResponse := {
  psr_success : bool;
  psr_data : list PopularSearchItem;
  psr_period : string;
  psr_limit : number
}.

Record SearchHistoryOptions := {
  page : option number;
  limit : option number;
  successOnly : option bool;
  query : option string;
  startDate : option string;
  endDate : option string
}.

(** [Boolean.prototype.toString] *)
Definition boolean_toString (b : bool) : string := if b then "true" else "false".

Definition truthy_boolean (b : bool) : bool := b.

Definition getHistory_params (options : SearchHistoryOptions) : URLSearchParams :=
  let params := [] in
  let params := append_if truthy_number number_toString "page" (page options) params in
  let params := append_if truthy_number number_toString "limit" (limit options) params in
  let params := append_if truthy_boolean boolean_toString "successOnly"
                  (successOnly options) params in
  let params := append_if truthy_string (fun s => s) "query" (query options) params in
  let params := append_if truthy_string (fun s => s) "startDate" (startDate options) params in
  append_if truthy_string (fun s => s) "endDate" (endDate options) params.

Definition getHistory_url (options : SearchHistoryOptions) : string :=
  "/search/history?" ++ URLSearchParams_toString (getHistory_params options).

(** [options] defaults to the empty object. *)
Definition noOptions : SearchHistoryOptions :=
  {| page := None; limit := None; successOnly := None; query := None;
     startDate := None; endDate := None |}.

Definition getHistory
  (get : string -> Promise (AxiosResponse SearchHistoryResponse))
  (options : option SearchHistoryOptions) : Promise SearchHistoryResponse :=
  let options := match options with Some o => o | None => noOptions end in
  response <- get (getHistory_url options) ;;
  Resolved (ar_data response).

(** A parameter with a default value. *)
Definition with_default {A : Type} (default : A) (argument : option A) : A :=
  match argument with
  | Some a => a
  | None => default
  end.

Definition getPopularSearches_url (limit days : option number) : string :=
  "/search/popular?limit=" ++ number_toString (with_default 10%Z limit)
  ++ "&days=" ++ number_toString (with_default 30%Z days).

Definition getPopularSearches
  (get : string -> Promise (AxiosResponse PopularSearchResponse))
  (limit days : option number) : Promise PopularSearchResponse :=
  response <- get (getPopularSearches_url limit days) ;;
  Resolved (ar_data response).

(** The default filters of the history panel, [{ limit: 10, successOnly:
    false }], with the page spread in. *)
Definition panel_defaults (page : number) : SearchHistoryOptions :=
  {| page := Some page; limit := Some 10%Z; successOnly := Some false; query := None;
     startDate := None; endDate := None |}.

End SearchHistoryApi.

(** Reading a URL back: what a server sees of it. *)
Module Url.

Import Js Api.

(** How often a character occurs in a string. *)
Fixpoint occurrences (c : ascii) (s : string) : nat :=
  match s with
  | EmptyString => 0
  | String d rest => (if Ascii.eqb c d then 1 else 0) + occurrences c rest
  end.

Definition hex_value (c : ascii) : option N :=
  let b := N_of_ascii c in
  if ((48 <=? b) && (b <=? 57))%N then Some (b - 48)%N
  else if ((65 <=? b) && (b <=? 70))%N then Some (b - 55)%N
  else if ((97 <=? b) && (b <=? 102))%N then Some (b - 87)%N
  else None.

(** Percent-decoding, byte by byte: the inverse a server applies to a path
    or query component. A stray percent sign is not a component. *)
Fixpoint percent_decode (s : string) : option string :=
  match s with
  | EmptyString => Some ""
  | String c rest =>
      if Ascii.eqb c "%" then
        match rest with
        | String h (String l rest') =>
            match hex_value h, hex_value l, percent_decode rest' with
            | Some hi, Some lo, Some t => Some (String (ascii_of_N (hi * 16 + lo)) t)
            | _, _, _ => None
            end
        | _ => None
        end
      else
        match percent_decode rest with
        | Some t => Some (String c t)
        | None => None
        end
  end.

End Url.

Module ProductUrls.

Import Js Api.

(** The URL [searchProducts] asks for. *)
Definition searchProducts_url (query : string) : string :=
  "/products/search?q=" ++ encodeURIComponent query.

End ProductUrls.

(* ================================================================== *)
(** ** context/AuthContext.tsx: the provider's functions *)

Module AuthProvider.

Import Js Auth.

(** The payloads of [authApi], [response.data] of the four endpoints. *)
Record AuthResponse := {
  auth_success : bool;
  auth_message : string;
  auth_user : option User
}.

Record SessionResponse := {
  session_success : bool;
  session_authenticated : bool;
  session_user : option User
}.

Record PreferencesResponse := {
  prefs_success : bool;
  prefs_message : string;
  prefs_preferences : Preferences
}.

(** What [catch (error: any)] binds here: the error axios rejected with,
    which has a [message] of its own beside the response, or an [Error]
    thrown in the [try] block. *)
Inductive Caught :=
| AxiosFailure (e : AxiosError) (message : string)
| PlainError (message : string).

(** The outcome of an awaited call of [authApi], or of a provider function. *)
Inductive Settled (A : Type) :=
| Fulfilled (a : A)
| Failed (error : Caught).

Arguments Fulfilled {A} a.
Arguments Failed {A} error.

(** [error.response?.data?.message] *)
Definition caught_response_message (error : Caught) : option string :=
  match error with
  | AxiosFailure e _ => Api.response_message e
  | PlainError _ => None
  end.

(** [error.message] *)
Definition caught_message (error : Caught) : string :=
  match error with
  | AxiosFailure _ message => message
  | PlainError message => message
  end.

(** [a || b] for an optional string [a] and a string [b]. *)
Definition or_else (a : option string) (b : string) : string :=
  match a with
  | Some s => if truthy_string s then s else b
  | None => b
  end.

(** [error.response?.data?.message || error.message || fallback] *)
Definition errorMessage (error : Caught) (fallback : string) : string :=
  or_else (Some (or_else (caught_response_message error) (caught_message error))) fallback.

(** One call of a provider function, with nothing else dispatched in
    between: the actions it dispatches, in order, and how its promise
    settles. *)
Record Run := {
  dispatched : list AuthAction;
  completion : Settled unit
}.

(** The state after a run. *)
Definition after (state : AuthState) (run : Run) : AuthState :=
  fold_left authReducer (dispatched run) state.

Definition checkSession (session : Settled SessionResponse) : Run :=
  match session with
  | Fulfilled response =>
      if session_authenticated response && truthy_opt truthy_user (session_user response)
      then {| dispatched := [SET_LOADING true; SET_USER (session_user response)];
              completion := Fulfilled tt |}
      else {| dispatched := [SET_LOADING true; SET_USER None];
              completion := Fulfilled tt |}
  | Failed _ =>
      {| dispatched := [SET_LOADING true; SET_ERROR (Some "Failed to check session")];
         completion := Fulfilled tt |}
  end.

(** The body shared by [login] and [register], which differ in the call of
    [authApi] and in the fallback text. The [try] block dispatches, awaits
    and either dispatches the user or throws; [catch] dispatches the message
    of what was thrown and throws it again. *)
Definition signIn (fallback : string) (answer : Settled AuthResponse) : Run :=
  let before := [SET_LOADING true; SET_ERROR None] in
  let rest : list AuthAction * option Caught :=
    match answer with
    | Fulfilled response =>
        if auth_success response && truthy_opt truthy_user (auth_user response)
        then ([SET_USER (auth_user response)], None)
        else ([], Some (PlainError (or_else (Some (auth_message response)) fallback)))
    | Failed error => ([], Some error)
    end in
  match snd rest with
  | None => {| dispatched := before ++ fst rest; completion := Fulfilled tt |}
  | Some error =>
      {| dispatched := before ++ fst rest ++ [SET_ERROR (Some (errorMessage error fallback))];
         completion := Failed error |}
  end.

Definition login (answer : Settled AuthResponse) : Run := signIn "Login failed" answer.

Definition register (answer : Settled AuthResponse) : Run :=
  signIn "Registration failed" answer.

(** [finally] dispatches whether [authApi.logout] resolved or was rejected;
    [catch] only logs. *)
Definition logout {A : Type} (answer : Settled A) : Run :=
  match answer with
  | Fulfilled _ => {| dispatched := [LOGOUT]; completion := Fulfilled tt |}
  | Failed _ => {| dispatched := [LOGOUT]; completion := Fulfilled tt |}
  end.

(** [{ ...state.user, preferences: response.preferences }] *)
Definition with_preferences (u : User) (p : Preferences) : User :=
  {| user_id := user_id u;
     username := username u;
     email := email u;
     firstName := firstName u;
     lastName := lastName u;
     preferences := p |}.

(** [state] is the state the function sees when it is called; the update is
    built only when [response.success && state.user] holds. *)
Definition updatePreferences (state : AuthState) (answer : Settled PreferencesResponse)
  : Run :=
  match answer with
  | Fulfilled response =>
      match user state with
      | Some u =>
          if prefs_success response && truthy_user u
          then {| dispatched := [SET_USER (Some (with_preferences u (prefs_preferences response)))];
                  completion := Fulfilled tt |}
          else {| dispatched := []; completion := Fulfilled tt |}
      | None => {| dispatched := []; completion := Fulfilled tt |}
      end
  | Failed error =>
      {| dispatched := [SET_ERROR (Some (errorMessage error "Failed to update preferences"))];
         completion := Failed error |}
  end.

(** What [login] and [register], and what [checkSession], dispatch before
    they await the backend. *)
Definition signIn_before_await : list AuthAction := [SET_LOADING true; SET_ERROR None].
Definition checkSession_before_await : list AuthAction := [SET_LOADING true].

(** The states of the provider when its functions run one after the other,
    each on whatever the backend answers. *)
Inductive provider_state : AuthState -> Prop :=
| provider_initial : provider_state initialState
| provider_checkSession state answer :
    provider_state state -> provider_state (after state (checkSession answer))
| provider_login state answer :
    provider_state state -> provider_state (after state (login answer))
| provider_register state answer :
    provider_state state -> provider_state (after state (register answer))
| provider_logout state (answer : Settled unit) :
    provider_state state -> provider_state (after state (logout answer))
| provider_updatePreferences state answer :
    provider_state state -> provider_state (after state (updatePreferences state answer)).

(** What the provider's functions keep true of the state. *)
Definition provider_invariant (state : AuthState) : Prop :=
  isAuthenticated state = not_null (user state)
  /\ (forall text, error state = Some text -> text <> "").

(** An action that does not set the empty text as the error. *)
Definition harmless (action : AuthAction) : Prop :=
  forall text, action = SET_ERROR (Some text) -> text <> "".

(** Some answers of the backend. *)
Definition ada : User :=
  {| user_id := 1%Z; username := "ada"; email := "ada@example.com";
     firstName := Some "Ada"; lastName := Some "Lovelace";
     preferences := {| searchHistoryLimit := 10%Z; popularSearchesLimit := 10%Z;
                       theme := "light" |} |}.

Definition welcome : AuthResponse :=
  {| auth_success := true; auth_message := "Login successful"; auth_user := Some ada |}.

Definition wrong_password : Caught :=
  AxiosFailure
    {| response := Some {| status := 401%Z;
                           data := Some {| body_message := Some "Invalid credentials" |} |};
       code := Some "ERR_BAD_REQUEST" |}
    "Request failed with status code 401".

Definition offline : Caught :=
  AxiosFailure {| response := None; code := Some "ERR_NETWORK" |} "Network Error".

Definition refused : AuthResponse :=
  {| auth_success := false; auth_message := ""; auth_user := None |}.

Definition dark : PreferencesResponse :=
  {| prefs_success := true; prefs_message := "Preferences updated";
     prefs_preferences := {| searchHistoryLimit := 20%Z; popularSearchesLimit := 5%Z;
                             theme := "dark" |} |}.

End AuthProvider.

(* ================================================================== *)
(** ** components/UserMenu.tsx *)

Module UserMenu.

Import Js Auth AuthProvider.

(** The cells of the menu; [anchorEl] is the element the menu hangs on, or
    null when the menu is closed. *)
Record MenuState := {
  anchorEl : option string;
  showLoginForm : bool;
  showRegisterForm : bool
}.

Definition handleMenuClose (m : MenuState) : MenuState :=
  {| anchorEl := None;
     showLoginForm := showLoginForm m;
     showRegisterForm := showRegisterForm m |}.

(** [handleLogout]: the menu is closed after [await logout()], inside the
    [try]; [logoutCompletion] is how the provider's [logout] settled. *)
Definition handleLogout (logoutCompletion : Settled unit) (m : MenuState) : MenuState :=
  match logoutCompletion with
  | Fulfilled _ => handleMenuClose m
  | Failed _ => m
  end.

(** The string of an optional field, read where the field was tested
    truthy. *)
Definition the (field : option string) : string :=
  match field with
  | Some s => s
  | None => ""
  end.

(** [user?.field] *)
Definition of_user {A : Type} (user : option User) (field : User -> option A) : option A :=
  match user with
  | Some u => field u
  | None => None
  end.

(** [getDisplayName], on [state.user]. *)
Definition getDisplayName (user : option User) : string :=
  if truthy_opt truthy_string (of_user user firstName)
     && truthy_opt truthy_string (of_user user lastName)
  then the (of_user user firstName) ++ " " ++ the (of_user user lastName)
  else if truthy_opt truthy_string (of_user user firstName)
  then the (of_user user firstName)
  else or_else (of_user user (fun u => Some (username u))) "User".

End UserMenu.

(* ================================================================== *)
(** ** components/FilterAndSort.tsx *)

Module FilterAndSort.

Import Js Api.

(** The keys [handleFilterChange] is called with, and the type of the value
    that comes with each: the selects give a string, the price fields a
    number, and [undefined] is [None]. *)
Inductive FilterKey := key_category | key_brand | key_minPrice | key_maxPrice.

Definition value_type (key : FilterKey) : Type :=
  match key with
  | key_category | key_brand => string
  | key_minPrice | key_maxPrice => number
  end.

(** [filters[key]] *)
Definition get_key (key : FilterKey) (filters : SearchFilters) : option (value_type key) :=
  match key with
  | key_category => category filters
  | key_brand => brand filters
  | key_minPrice => minPrice filters
  | key_maxPrice => maxPrice filters
  end.

(** [filters[key] = value], and [delete filters[key]] for [None]. *)
Definition put_key (key : FilterKey) (value : option (value_type key))
  (filters : SearchFilters) : SearchFilters :=
  match key return option (value_type key) -> SearchFilters with
  | key_category => fun value =>
      {| category := value; brand := brand filters; minPrice := minPrice filters;
         maxPrice := maxPrice filters; attributes := attributes filters |}
  | key_brand => fun value =>
      {| category := category filters; brand := value; minPrice := minPrice filters;
         maxPrice := maxPrice filters; attributes := attributes filters |}
  | key_minPrice => fun value =>
      {| category := category filters; brand := brand filters; minPrice := value;
         maxPrice := maxPrice filters; attributes := attributes filters |}
  | key_maxPrice => fun value =>
      {| category := category filters; brand := brand filters; minPrice := minPrice filters;
         maxPrice := value; attributes := attributes filters |}
  end value.

(** [value === ''] *)
Definition is_empty_string (key : FilterKey) : value_type key -> bool :=
  match key with
  | key_category | key_brand => fun value => value =? ""
  | key_minPrice | key_maxPrice => fun _ => false
  end.

(** The [newFilters] object of [handleFilterChange]. *)
Definition changed (filters : SearchFilters) (key : FilterKey)
  (value : option (value_type key)) : SearchFilters :=
  match value with
  | Some v => if is_empty_string key v then put_key key None filters
              else put_key key (Some v) filters
  | None => put_key key None filters
  end.

(** The callbacks are what they do to the application, [W]. *)
Definition handleFilterChange {W : Type} (onFiltersChange : SearchFilters -> W -> W)
  (filters : SearchFilters) (key : FilterKey) (value : option (value_type key)) : W -> W :=
  onFiltersChange (changed filters key value).

Definition noFilters : SearchFilters :=
  {| category := None; brand := None; minPrice := None; maxPrice := None;
     attributes := None |}.

Definition clearAllFilters {W : Type} (onFiltersChange : SearchFilters -> W -> W)
  (onSortChange : option SortBy -> W -> W) (w : W) : W :=
  let w := onFiltersChange noFilters w in
  onSortChange (Some relevance) w.

(** A key counts when its value is neither [undefined] nor ['']. *)
Definition counts_string (value : option string) : nat :=
  match value with
  | Some s => if s =? "" then 0 else 1
  | None => 0
  end.

Definition counts {A : Type} (value : option A) : nat :=
  match value with
  | Some _ => 1
  | None => 0
  end.

Definition getActiveFilterCount (filters : SearchFilters) : nat :=
  counts_string (category filters) + counts_string (brand filters)
  + counts (minPrice filters) + counts (maxPrice filters) + counts (attributes filters).

(** The chips under 'Active Filters', one per truthy field. *)
Definition chip (shown : bool) : nat := if shown then 1 else 0.

Definition chips (filters : SearchFilters) : nat :=
  chip (truthy_opt truthy_string (category filters))
  + chip (truthy_opt truthy_string (brand filters))
  + chip (truthy_opt truthy_number (minPrice filters))
  + chip (truthy_opt truthy_number (maxPrice filters)).

(** [getActiveFilterCount() > 0 || sortBy !== 'relevance'], the condition
    under which the clear button is shown. *)
Definition clear_shown (filters : SearchFilters) (sortBy : option SortBy) : bool :=
  (0 <? getActiveFilterCount filters)%nat
  || negb (strict_eq_string (option_map SortBy_literal sortBy) "relevance").

End FilterAndSort.

(* ================================================================== *)
(** ** App.tsx: the other handlers, and what the render shows *)

Module AppHandlers.

Import Js Api App.

Definition setSelectedProduct (v : option Product) (s : AppState) : AppState :=
  {| products := products s; isLoading := isLoading s;
     isFilteringOrSorting := isFilteringOrSorting s; error := error s;
     searchQuery := searchQuery s; currentTab := currentTab s;
     selectedProduct := v; isDetailViewOpen := isDetailViewOpen s;
     filters := filters s; sortBy := sortBy s |}.

Definition setIsDetailViewOpen (v : bool) (s : AppState) : AppState :=
  {| products := products s; isLoading := isLoading s;
     isFilteringOrSorting := isFilteringOrSorting s; error := error s;
     searchQuery := searchQuery s; currentTab := currentTab s;
     selectedProduct := selectedProduct s; isDetailViewOpen := v;
     filters := filters s; sortBy := sortBy s |}.

Definition setCurrentTab (v : number) (s : AppState) : AppState :=
  {| products := products s; isLoading := isLoading s;
     isFilteringOrSorting := isFilteringOrSorting s; error := error s;
     searchQuery := searchQuery s; currentTab := v;
     selectedProduct := selectedProduct s; isDetailViewOpen := isDetailViewOpen s;
     filters := filters s; sortBy := sortBy s |}.

(** A request a handler has sent and whose answer is awaited. *)
Inductive Issued :=
| SearchIssued (call : SearchCall) (options : SearchOptions)
| ProductsIssued (url : string).

(** The cells, as the setters called so far leave them, and the requests
    sent so far. *)
Record World := {
  cells : AppState;
  issued : list Issued
}.

Definition update (f : AppState -> AppState) (w : World) : World :=
  {| cells := f (cells w); issued := issued w |}.

Definition send (request : Issued) (w : World) : World :=
  {| cells := cells w; issued := (issued w ++ [request])%list |}.

(** A handler is a closure of one render: [render] holds the cells as that
    render saw them, which is what the names [searchQuery], [filters] and
    [sortBy] inside the handler stand for; the setters act on the world. *)

(** [handleSearch] up to its [await]. *)
Definition handleSearch_call (render : AppState) (call : SearchCall) (w : World) : World :=
  let w := update (fun s => handleSearch_begin s call) w in
  send (SearchIssued call (searchOptions render call)) w.

(** [fetchAllProducts] up to its [await], and from there on. *)
Definition fetchAllProducts_call (applyFilters : option SearchFilters)
  (applySortBy : option SortBy) (w : World) : World :=
  let w := update (setIsLoading true) w in
  let w := update (setError None) w in
  send (ProductsIssued (getAllProducts_url applyFilters applySortBy)) w.

Definition fetchAllProducts_settle (outcome : Promise (list Product)) (s : AppState)
  : AppState :=
  let s :=
    match outcome with
    | Resolved products => setProducts products s
    | Rejected err => setError (Some (getErrorMessage err)) s
    end in
  setIsLoading false s.

Definition handleProductClick (product : Product) (w : World) : World :=
  let w := update (setSelectedProduct (Some product)) w in
  update (setIsDetailViewOpen true) w.

Definition handleCloseDetailView (w : World) : World :=
  let w := update (setIsDetailViewOpen false) w in
  update (setSelectedProduct None) w.

Definition resetSearch (w : World) : World :=
  let w := update (setSearchQuery "") w in
  let w := update (setFilters noFilters) w in
  let w := update (setSortBy (Some relevance)) w in
  fetchAllProducts_call None None w.

Definition handleCloseError (w : World) : World := update (setError None) w.

Definition handleTabChange (newValue : number) (w : World) : World :=
  update (setCurrentTab newValue) w.

Definition plain_search (query : string) : SearchCall :=
  {| query := query; newFilters := None; newSortBy := None; isFilterOperation := false |}.

Definition handleSearchFromHistory (render : AppState) (query : string) (w : World)
  : World :=
  let w := update (setCurrentTab 0%Z) w in
  handleSearch_call render (plain_search query) w.

Definition handleFiltersChange (render : AppState) (newFilters : SearchFilters)
  (w : World) : World :=
  let w := update (setFilters newFilters) w in
  if truthy_string (searchQuery render)
  then handleSearch_call render
         {| query := searchQuery render; newFilters := Some newFilters;
            newSortBy := sortBy render; isFilterOperation := true |} w
  else w.

Definition handleSortChange (render : AppState) (newSortBy : option SortBy)
  (w : World) : World :=
  let w := update (setSortBy newSortBy) w in
  if truthy_string (searchQuery render)
  then handleSearch_call render
         {| query := searchQuery render; newFilters := Some (filters render);
            newSortBy := newSortBy; isFilterOperation := true |} w
  else w.

(** The clear button of [FilterAndSort], wired to the two handlers of the
    render it belongs to. *)
Definition clearAllFilters (render : AppState) (w : World) : World :=
  FilterAndSort.clearAllFilters (handleFiltersChange render) (handleSortChange render) w.

(** What the render shows. *)

(** [if (isLoading) return] the spinner page. *)
Definition spinner_page (s : AppState) : bool := isLoading s.

(** [open={!!error}] of the snackbar. *)
Definition snackbar_open (s : AppState) : bool :=
  negb (negb (truthy_opt truthy_string (error s))).

(** What the detail view shows. While [isLoading] is set the render returns
    the spinner page alone, without the detail view; otherwise it holds
    [<ProductDetailView product={selectedProduct} open={isDetailViewOpen}>],
    which returns null without a product and whose dialog is open with
    [open]. *)
Definition detail_view_shown (s : AppState) : option Product :=
  if spinner_page s then None
  else match selectedProduct s with
       | Some product => if isDetailViewOpen s then Some product else None
       | None => None
       end.

(** The two cells of the detail view. *)
Definition detail_cells (s : AppState) : option Product * bool :=
  (selectedProduct s, isDetailViewOpen s).

(** The view is open exactly when a product is selected. *)
Definition detail_consistent (s : AppState) : Prop :=
  isDetailViewOpen s = match selectedProduct s with Some _ => true | None => false end.

(** Everything that can happen to the application; a handler runs as the
    closure of the render of the current cells. *)
Inductive Action :=
| Mount
| ProductsArrive (outcome : Promise (list Product))
| Search (query : string)
| SearchFromHistory (query : string)
| SearchArrives (call : SearchCall) (outcome : Promise (list Product))
| FiltersChange (newFilters : SearchFilters)
| SortChange (newSortBy : option SortBy)
| ClearAllFilters
| ResetSearch
| ProductClick (product : Product)
| CloseDetailView
| CloseError
| TabChange (newValue : number).

Definition act (w : World) (action : Action) : World :=
  match action with
  | Mount => fetchAllProducts_call None None w
  | ProductsArrive outcome => update (fetchAllProducts_settle outcome) w
  | Search query => handleSearch_call (cells w) (plain_search query) w
  | SearchFromHistory query => handleSearchFromHistory (cells w) query w
  | SearchArrives call outcome => update (handleSearch_settle call outcome) w
  | FiltersChange newFilters => handleFiltersChange (cells w) newFilters w
  | SortChange newSortBy => handleSortChange (cells w) newSortBy w
  | ClearAllFilters => clearAllFilters (cells w) w
  | ResetSearch => resetSearch w
  | ProductClick product => handleProductClick product w
  | CloseDetailView => handleCloseDetailView w
  | CloseError => handleCloseError w
  | TabChange newValue => handleTabChange newValue w
  end.

Definition start : World := {| cells := initialState; issued := [] |}.

Definition play (actions : list Action) : World := fold_left act actions start.

(** A search is on, with a brand filter and a price sort. *)
Definition searching : AppState :=
  {| products := Examples.first_results;
     isLoading := false;
     isFilteringOrSorting := false;
     error := None;
     searchQuery := "laptop";
     currentTab := 0%Z;
     selectedProduct := None;
     isDetailViewOpen := false;
     filters := Examples.nike_under_250;
     sortBy := Some price_asc |}.

End AppHandlers.

(* ================================================================== *)
(** ** components/RegisterForm.tsx *)

Module RegisterForm.

Import SearchBar.
Import AuthProvider.

(** The fields are strings of UTF-16 code units: [length] counts them and
    the regular expression reads them. *)
Record FormData := {
  username : jsstring;
  email : jsstring;
  password : jsstring;
  firstName : jsstring;
  lastName : jsstring
}.

Record State := {
  formData : FormData;
  confirmPassword : jsstring;
  localError : option string
}.

Definition emptyForm : FormData :=
  {| username := []; email := []; password := []; firstName := []; lastName := [] |}.

(** [[^\s@]]: a code unit that is neither whitespace nor the at sign. The
    class [\s] is the whitespace set [trim] strips. *)
Definition plain (c : code_unit) : bool := negb (isWhiteSpace c) && negb (c =? 64)%N.

(** The longest prefix of plain code units, and what follows it. *)
Fixpoint span_plain (s : jsstring) : jsstring * jsstring :=
  match s with
  | [] => ([], [])
  | c :: rest =>
      if plain c
      then let (a, b) := span_plain rest in (c :: a, b)
      else ([], s)
  end.

(** A dot that is neither the first nor the last code unit. *)
Definition inner_dot (d : jsstring) : bool :=
  match d with
  | [] => false
  | _ :: t => existsb (N.eqb 46) (removelast t)
  end.

(** [/^[^\s@]+@[^\s@]+\.[^\s@]+$/.test(s)]. The first class cannot run
    past an at sign or a space, so it takes the longest plain prefix, which
    must not be empty and must be followed by the at sign; the rest must be
    plain up to the end and hold a dot with something on both sides. *)
Definition emailRegex_test (s : jsstring) : bool :=
  match span_plain s with
  | (_ :: _, c :: d) => (c =? 64)%N && forallb plain d && inner_dot d
  | _ => false
  end.

(** The language of the regular expression, read off it: a parse of the
    string as three non-empty plain runs around an at sign and a dot. *)
Definition emailRegex_language (s : jsstring) : Prop :=
  exists a b c : jsstring,
    s = (a ++ [64%N] ++ b ++ [46%N] ++ c)%list
    /\ a <> [] /\ b <> [] /\ c <> []
    /\ forallb plain a = true /\ forallb plain b = true /\ forallb plain c = true.

(** [a !== b] on strings. *)
Fixpoint jsstring_eqb (a b : jsstring) : bool :=
  match a, b with
  | [], [] => true
  | x :: a', y :: b' => (x =? y)%N && jsstring_eqb a' b'
  | _, _ => false
  end.

(** [validateForm]: [None] when it returns true, and otherwise the text it
    passes to [setLocalError] before it returns false. *)
Definition validateForm (state : State) : option string :=
  let form := formData state in
  if negb (truthy (username form)) || negb (truthy (email form))
     || negb (truthy (password form))
  then Some "Please fill in all required fields"
  else if (length (username form) <? 3)%nat
  then Some "Username must be at least 3 characters long"
  else if (length (password form) <? 6)%nat
  then Some "Password must be at least 6 characters long"
  else if negb (jsstring_eqb (password form) (confirmPassword state))
  then Some "Passwords do not match"
  else if negb (emailRegex_test (email form))
  then Some "Please enter a valid email address"
  else None.

(** What [register] is called with: the form with empty optional names
    turned into [undefined]. *)
Record SubmitData := {
  sd_username : jsstring;
  sd_email : jsstring;
  sd_password : jsstring;
  sd_firstName : option jsstring;
  sd_lastName : option jsstring
}.

(** [value || undefined] *)
Definition or_undefined (value : jsstring) : option jsstring :=
  if truthy value then Some value else None.

Definition submitData (form : FormData) : SubmitData :=
  {| sd_username := username form;
     sd_email := email form;
     sd_password := password form;
     sd_firstName := or_undefined (firstName form);
     sd_lastName := or_undefined (lastName form) |}.

(** [handleSubmit] up to its [await]: the state, and the call of [register]
    if there is one. *)
Definition handleSubmit_call (state : State) : State * option SubmitData :=
  match validateForm state with
  | Some text =>
      ({| formData := formData state; confirmPassword := confirmPassword state;
          localError := Some text |}, None)
  | None =>
      ({| formData := formData state; confirmPassword := confirmPassword state;
          localError := None |}, Some (submitData (formData state)))
  end.

(** [handleSubmit] from its [await] on: the state, and whether [onClose] is
    called. *)
Definition handleSubmit_settle (registered : Settled unit) (state : State) : State * bool :=
  match registered with
  | Fulfilled _ =>
      ({| formData := emptyForm; confirmPassword := []; localError := localError state |},
       true)
  | Failed _ => (state, false)
  end.

(** "ada@example.com", and a form filled in with it. *)
Definition ada_email : jsstring :=
  [97; 100; 97; 64; 101; 120; 97; 109; 112; 108; 101; 46; 99; 111; 109]%N.

Definition ada_form : State :=
  {| formData := {| username := [97; 100; 97]%N;
                    email := ada_email;
                    password := [115; 101; 99; 114; 101; 116]%N;
                    firstName := [65; 100; 97]%N;
                    lastName := [] |};
     confirmPassword := [115; 101; 99; 114; 101; 116]%N;
     localError := None |}.

End RegisterForm.

(* ================================================================== *)
(** ** components/PopularSearches.tsx *)

Module PopularSearches.

Import Js SearchHistoryApi.

Record State := {
  popularSearches : list PopularSearchItem;
  period : number;
  limit : number
}.

(** [useState(30)] and [useState(maxItems)], with [maxItems = 10] by
    default. *)
Definition initialState (maxItems : option number) : State :=
  {| popularSearches := []; period := 30%Z; limit := with_default 10%Z maxItems |}.

(** The click on the button under the list:
    [setLimit(Math.min(limit + 10, 50))]. *)
Definition showMore (state : State) : State :=
  {| popularSearches := popularSearches state;
     period := period state;
     limit := Z.min (limit state + 10) 50 |}.

(** The two selects: [setPeriod(Number(e.target.value))] and
    [setLimit(Number(e.target.value))], with the values of their menu
    items. *)
Definition offered_periods : list number := [7; 30; 90]%Z.
Definition offered_limits : list number := [5; 10; 15; 20]%Z.

Definition selectPeriod (days : number) (state : State) : State :=
  {| popularSearches := popularSearches state; period := days; limit := limit state |}.

Definition selectLimit (n : number) (state : State) : State :=
  {| popularSearches := popularSearches state; period := period state; limit := n |}.

(** The states the panel can be in: a select only gives what it offers. *)
Inductive reachable (maxItems : option number) : State -> Prop :=
| reachable_initial : reachable maxItems (initialState maxItems)
| reachable_showMore state :
    reachable maxItems state -> reachable maxItems (showMore state)
| reachable_selectPeriod state days :
    reachable maxItems state -> In days offered_periods ->
    reachable maxItems (selectPeriod days state)
| reachable_selectLimit state n :
    reachable maxItems state -> In n offered_limits ->
    reachable maxItems (selectLimit n state)
| reachable_loaded state items :
    reachable maxItems state ->
    reachable maxItems
      {| popularSearches := items; period := period state; limit := limit state |}.

(** The URL [fetchPopularSearches] asks for. *)
Definition request (state : State) : string :=
  getPopularSearches_url (Some (limit state)) (Some (period state)).

End PopularSearches.

(* ================================================================== *)
(** * Properties *)

Section ApiProperties.

Import Js Api.

(** ** apiUtils.getErrorMessage *)

Lemma truthy_string_true (s : string) : truthy_string s = true <-> s <> "".
Proof.
  unfold truthy_string. rewrite negb_true_iff. apply String.eqb_neq.
Qed.

Lemma strict_eq_number_true (x : option Z) (n : Z) :
  strict_eq_number x n = true <-> x = Some n.
Proof.
  destruct x as [v|]; simpl.
  - rewrite Z.eqb_eq. split; congruence.
  - split; discriminate.
Qed.

Lemma strict_eq_number_false (x : option Z) (n : Z) :
  strict_eq_number x n = false <-> x <> Some n.
Proof.
  rewrite <- strict_eq_number_true. destruct (strict_eq_number x n); split; congruence.
Qed.

Lemma strict_eq_string_true (x : option string) (s : string) :
  strict_eq_string x s = true <-> x = Some s.
Proof.
  destruct x as [v|]; simpl.
  - rewrite String.eqb_eq. split; congruence.
  - split; discriminate.
Qed.

Lemma strict_eq_string_false (x : option string) (s : string) :
  strict_eq_string x s = false <-> x <> Some s.
Proof.
  rewrite <- strict_eq_string_true. destruct (strict_eq_string x s); split; congruence.
Qed.

(** C1, as stated, fails: a body whose message is the empty string passes
    every earlier check, and the answer is the generic text, not the
    message. *)
Lemma getErrorMessage_empty_message :
  getErrorMessage (Axios Examples.empty_message_error)
    = "An unexpected error occurred. Please try again."
  /\ ~ message_clause_as_stated.
Proof.
  split; [reflexivity|].
  intros H.
  specialize (H Examples.empty_message_error "").
  discriminate H; cbv; congruence.
Qed.

(** C1 (amended): [getErrorMessage] maps every thrown value to one string by
    priority: status 404, then status 500, then code ECONNABORTED, then code
    ERR_NETWORK, then a non-empty backend message, and the generic text in
    every other case, non-Axios values included. *)
Theorem getErrorMessage_priority (error : thrown) :
  (forall e, error = Axios e ->
     response_status e = Some 404%Z ->
     getErrorMessage error = "The requested resource was not found.")
  /\ (forall e, error = Axios e ->
        response_status e = Some 500%Z ->
        getErrorMessage error = "Server error occurred. Please try again later.")
  /\ (forall e, error = Axios e ->
        response_status e <> Some 404%Z -> response_status e <> Some 500%Z ->
        code e = Some "ECONNABORTED" ->
        getErrorMessage error = "Request timed out. Please check your connection.")
  /\ (forall e, error = Axios e ->
        response_status e <> Some 404%Z -> response_status e <> Some 500%Z ->
        code e = Some "ERR_NETWORK" ->
        getErrorMessage error = "Network error. Please check your internet connection.")
  /\ (forall e m, error = Axios e ->
        response_status e <> Some 404%Z -> response_status e <> Some 500%Z ->
        code e <> Some "ECONNABORTED" -> code e <> Some "ERR_NETWORK" ->
        response_message e = Some m -> m <> "" ->
        getErrorMessage error = m)
  /\ (forall e, error = Axios e ->
        response_status e <> Some 404%Z -> response_status e <> Some 500%Z ->
        code e <> Some "ECONNABORTED" -> code e <> Some "ERR_NETWORK" ->
        response_message e = None \/ response_message e = Some "" ->
        getErrorMessage error = "An unexpected error occurred. Please try again.")
  /\ ((forall e, error <> Axios e) ->
        getErrorMessage error = "An unexpected error occurred. Please try again.").
Proof.
  repeat split.
  - intros e -> H. simpl.
    apply strict_eq_number_true in H. now rewrite H.
  - intros e -> H. simpl.
    assert (H4 : strict_eq_number (response_status e) 404 = false)
      by (apply strict_eq_number_false; rewrite H; discriminate).
    apply strict_eq_number_true in H. now rewrite H4, H.
  - intros e -> H4 H5 Hc. simpl.
    apply strict_eq_number_false in H4, H5. apply strict_eq_string_true in Hc.
    now rewrite H4, H5, Hc.
  - intros e -> H4 H5 Hc. simpl.
    assert (Ht : strict_eq_string (code e) "ECONNABORTED" = false)
      by (apply strict_eq_string_false; rewrite Hc; discriminate).
    apply strict_eq_number_false in H4, H5. apply strict_eq_string_true in Hc.
    now rewrite H4, H5, Ht, Hc.
  - intros e m -> H4 H5 Ht Hn Hm Hne. simpl.
    apply strict_eq_number_false in H4, H5. apply strict_eq_string_false in Ht, Hn.
    apply truthy_string_true in Hne.
    now rewrite H4, H5, Ht, Hn, Hm, Hne.
  - intros e -> H4 H5 Ht Hn Hm. simpl.
    apply strict_eq_number_false in H4, H5. apply strict_eq_string_false in Ht, Hn.
    rewrite H4, H5, Ht, Hn.
    destruct Hm as [-> | ->]; reflexivity.
  - intros Hna. destruct error as [e| | |]; try reflexivity.
    now destruct (Hna e).
Qed.

(** The status check wins over the code and over the backend message. *)
Lemma getErrorMessage_priority_witness :
  getErrorMessage (Axios Examples.not_found_error)
    = "The requested resource was not found."
  /\ getErrorMessage (Axios Examples.validation_error) = "Query is required".
Proof.
  split.
  - apply (proj1 (getErrorMessage_priority (Axios Examples.not_found_error))
             Examples.not_found_error); reflexivity.
  - apply (proj1 (proj2 (proj2 (proj2 (proj2
             (getErrorMessage_priority (Axios Examples.validation_error))))))
             Examples.validation_error "Query is required");
      try reflexivity; cbv; congruence.
Defined.

(** ** transformProduct and productApi *)

Lemma number_toString_decimal (n : number) : number_parse (number_toString n) = Some n.
Proof.
  unfold number_parse, number_toString.
  rewrite NilZero.isi.
  - simpl. now rewrite DecimalZ.of_to.
  - destruct n as [|p|p]; simpl; try discriminate.
    intros H. injection H as H. now apply DecimalPos.Unsigned.to_uint_nonnil in H.
  - destruct n as [|p|p]; simpl; try discriminate.
    intros H. injection H as H. now apply DecimalPos.Unsigned.to_uint_nonnil in H.
Qed.

Lemma andThen_resolved {A B : Type} (p : Promise A) (a : A) (k : A -> Promise B) :
  p = Resolved a -> andThen p k = k a.
Proof. now intros ->. Qed.

(** C2: [transformProduct] renders the id in decimal, copies name, price,
    description, imageUrl and ai_explanation, sets the currency to USD, and
    reads none of the other backend fields; every product function of
    [productApi] returns the image of the backend payload under
    [transformProduct], element by element and in the backend's order. *)
Theorem transformProduct_image :
  (forall b : BackendProduct,
     id (transformProduct b) = number_toString (bp_id b)
     /\ number_parse (id (transformProduct b)) = Some (bp_id b)
     /\ name (transformProduct b) = bp_name b
     /\ price (transformProduct b) = bp_price b
     /\ description (transformProduct b) = bp_description b
     /\ image (transformProduct b) = bp_imageUrl b
     /\ currency (transformProduct b) = Some "USD"
     /\ aiExplanation (transformProduct b) = bp_ai_explanation b)
  /\ (forall b b' : BackendProduct,
        bp_id b = bp_id b' -> bp_name b = bp_name b' -> bp_price b = bp_price b' ->
        bp_description b = bp_description b' -> bp_imageUrl b = bp_imageUrl b' ->
        bp_ai_explanation b = bp_ai_explanation b' ->
        transformProduct b = transformProduct b')
  /\ (forall (payload : list BackendProduct) (i : nat),
        length (map transformProduct payload) = length payload
        /\ nth_error (map transformProduct payload) i
           = option_map transformProduct (nth_error payload i))
  /\ (forall (api : Instance) filters sortBy r,
        get_products api (getAllProducts_url filters sortBy) = Resolved r ->
        getAllProducts api filters sortBy
          = Resolved (map transformProduct (br_data (ar_data r))))
  /\ (forall (api : Instance) query r,
        get_products api ("/products/search?q=" ++ encodeURIComponent query) = Resolved r ->
        searchProducts api query = Resolved (map transformProduct (br_data (ar_data r))))
  /\ (forall (api : Instance) options r,
        post_search api "/search" options = Resolved r ->
        aiSearch api options = Resolved (map transformProduct (sr_results (ar_data r))))
  /\ (forall (api : Instance) product_id r,
        get_product api ("/products/" ++ product_id) = Resolved r ->
        getProductById api product_id = Resolved (transformProduct (br_data (ar_data r))))
  /\ (forall (api : Instance) category r,
        get_products api ("/products/category/" ++ category) = Resolved r ->
        getProductsByCategory api category
          = Resolved (map transformProduct (br_data (ar_data r))))
  /\ (forall (api : Instance) r,
        get_products api "/products/featured" = Resolved r ->
        getFeaturedProducts api = Resolved (map transformProduct (br_data (ar_data r)))).
Proof.
  split; [|split; [|split]].
  - intros b. repeat split. apply number_toString_decimal.
  - intros b b' Hid Hname Hprice Hdesc Himg Hai.
    unfold transformProduct. congruence.
  - intros payload i. split.
    + apply length_map.
    + apply nth_error_map.
  - repeat split; intros;
      (unfold getAllProducts, searchProducts, aiSearch, getProductById,
         getProductsByCategory, getFeaturedProducts;
       erewrite andThen_resolved by eassumption; reflexivity).
Qed.

(** The two backend rows differ in category, attributes, dates and score
    only, and give the same product; the product list of a live backend is
    its rows transformed, in order. *)
Lemma transformProduct_image_witness :
  transformProduct Examples.headphones = transformProduct Examples.headphones_restocked
  /\ getAllProducts Examples.backend_up None None
     = Resolved [transformProduct Examples.headphones; transformProduct Examples.laptop].
Proof.
  split.
  - apply (proj1 (proj2 transformProduct_image)); reflexivity.
  - exact (proj1 (proj2 (proj2 (proj2 transformProduct_image)))
             Examples.backend_up None None Examples.two_rows eq_refl).
Defined.

(** ** apiUtils.healthCheck *)

(** C10: [healthCheck] never rejects: it resolves to [true] when the GET of
    /health resolves and to [false] when it is rejected, whatever was
    thrown. *)
Theorem healthCheck_total (api : Instance) :
  (exists b : bool, healthCheck api = Resolved b)
  /\ (forall e, healthCheck api <> Rejected e)
  /\ (forall r, get_any api "/health" = Resolved r -> healthCheck api = Resolved true)
  /\ (forall e, get_any api "/health" = Rejected e -> healthCheck api = Resolved false)
  /\ (healthCheck api = Resolved true <-> exists r, get_any api "/health" = Resolved r).
Proof.
  unfold healthCheck, tryCatch.
  destruct (get_any api "/health") as [r | e]; repeat split;
    try discriminate; try congruence; eauto.
  intros [r Hr]. discriminate Hr.
Qed.

Lemma healthCheck_total_witness :
  healthCheck Examples.backend_up = Resolved true
  /\ healthCheck Examples.backend_down = Resolved false.
Proof.
  split.
  - apply (proj1 (proj2 (proj2 (healthCheck_total Examples.backend_up)))
             {| ar_status := 200%Z; ar_data := tt |}).
    reflexivity.
  - apply (proj1 (proj2 (proj2 (proj2 (healthCheck_total Examples.backend_down))))
             (Axios Examples.timeout_error)).
    reflexivity.
Defined.

(** ** productApi.getAllProducts: the request *)

Lemma append_if_app {A : Type} (t : A -> bool) (render : A -> string) (name : string)
  (field : option A) (params : URLSearchParams) :
  append_if t render name field params
  = (params ++ append_if t render name field [])%list.
Proof.
  unfold append_if, append.
  destruct field as [v|]; [destruct (t v)|]; simpl; now rewrite ?app_nil_r.
Qed.

Lemma In_append_if {A : Type} (t : A -> bool) (render : A -> string) (name : string)
  (field : option A) (k v : string) :
  In (k, v) (append_if t render name field [])
  <-> k = name /\ exists a, field = Some a /\ t a = true /\ v = render a.
Proof.
  unfold append_if, append.
  destruct field as [a|]; [destruct (t a) eqn:Ht|]; simpl.
  - split.
    + intros [H | []]. injection H as <- <-. eauto.
    + intros [-> (a' & Ha & _ & ->)]. injection Ha as <-. now left.
  - split; [intros [] | intros [_ (a' & Ha & Ht' & _)]].
    injection Ha as <-. congruence.
  - split; [intros [] | intros [_ (a' & Ha & _)]]. discriminate.
Qed.

(** The [sortBy] guard holds of every literal but ['relevance']. *)
Lemma sortBy_guard (k : SortBy) :
  truthy_string (SortBy_literal k) && negb (SortBy_literal k =? "relevance") = true
  <-> k <> relevance.
Proof.
  destruct k; simpl; split; congruence.
Qed.

Lemma In_sortBy_entry (sortBy : option SortBy) (k v : string) :
  In (k, v) (sortBy_entry sortBy)
  <-> k = "sortBy" /\ exists key, sortBy = Some key /\ key <> relevance /\ v = SortBy_literal key.
Proof.
  unfold sortBy_entry.
  destruct sortBy as [key|].
  - destruct (truthy_string (SortBy_literal key) && negb (SortBy_literal key =? "relevance"))
      eqn:Hg; simpl.
    + apply sortBy_guard in Hg. split.
      * intros [H | []]. injection H as <- <-. eauto.
      * intros [-> (key' & Hk & _ & ->)]. injection Hk as <-. now left.
    + split; [intros [] | intros [_ (key' & Hk & Hne & _)]].
      injection Hk as <-. apply sortBy_guard in Hne. congruence.
  - simpl. split; [intros [] | intros [_ (key' & Hk & _)]]. discriminate.
Qed.

(** The parameters, in the order they are appended. *)
Lemma getAllProducts_params_eq (filters : option SearchFilters) (sortBy : option SortBy) :
  getAllProducts_params filters sortBy
  = (append_if truthy_string (fun s => s) "category" (optional_field filters category) []
     ++ append_if truthy_string (fun s => s) "brand" (optional_field filters brand) []
     ++ append_if truthy_number number_toString "minPrice"
          (optional_field filters minPrice) []
     ++ append_if truthy_number number_toString "maxPrice"
          (optional_field filters maxPrice) []
     ++ sortBy_entry sortBy)%list.
Proof.
  unfold getAllProducts_params. cbv zeta.
  rewrite (append_if_app _ _ "maxPrice"), (append_if_app _ _ "minPrice"),
    (append_if_app _ _ "brand").
  unfold sortBy_entry, append.
  destruct sortBy as [k|];
    [destruct (truthy_string (SortBy_literal k) && negb (SortBy_literal k =? "relevance"))|];
    rewrite <- ?app_assoc, ?app_nil_r; reflexivity.
Qed.

Lemma append_nonempty (s t : string) (c : ascii) : s ++ String c t <> "".
Proof. destruct s; discriminate. Qed.

Lemma URLSearchParams_toString_empty (params : URLSearchParams) :
  URLSearchParams_toString params = "" <-> params = [].
Proof.
  split; [|now intros ->].
  destruct params as [|p [|q rest]]; [reflexivity| |].
  - unfold URLSearchParams_toString, serialize_pair. simpl.
    intros H. now apply append_nonempty in H.
  - unfold URLSearchParams_toString. simpl.
    intros H. now apply append_nonempty in H.
Qed.

Lemma truthy_number_true (n : number) : truthy_number n = true <-> n <> 0%Z.
Proof.
  unfold truthy_number. rewrite negb_true_iff. apply Z.eqb_neq.
Qed.

(** C5, as stated, fails: a lower bound of zero is present in the filters,
    and the request is the bare /products, with no minPrice parameter. *)
Lemma getAllProducts_zero_bound :
  minPrice Examples.free_and_up = Some 0%Z
  /\ getAllProducts_url (Some Examples.free_and_up) None = "/products"
  /\ ~ present_bound_as_stated.
Proof.
  split; [reflexivity|]. split; [reflexivity|].
  intros H. specialize (H Examples.free_and_up None 0%Z eq_refl).
  cbv in H. exact H.
Qed.

(** C5 (amended): the request of [getAllProducts] goes to /products; its
    query carries category, brand, minPrice and maxPrice exactly for the
    filter fields that are truthy (a non-empty string, a non-zero number),
    the numbers in decimal, and sortBy exactly for a sort key other than
    relevance; with no parameter appended the URL is the bare /products. *)
Theorem getAllProducts_query (filters : option SearchFilters) (sortBy : option SortBy) :
  let params := getAllProducts_params filters sortBy in
  (forall v, In ("category", v) params
             <-> optional_field filters category = Some v /\ v <> "")
  /\ (forall v, In ("brand", v) params
                <-> optional_field filters brand = Some v /\ v <> "")
  /\ (forall v, In ("minPrice", v) params
                <-> exists n, optional_field filters minPrice = Some n
                              /\ n <> 0%Z /\ v = number_toString n)
  /\ (forall v, In ("maxPrice", v) params
                <-> exists n, optional_field filters maxPrice = Some n
                              /\ n <> 0%Z /\ v = number_toString n)
  /\ (forall v, In ("sortBy", v) params
                <-> exists k, sortBy = Some k /\ k <> relevance /\ v = SortBy_literal k)
  /\ (forall k v, In (k, v) params ->
        In k ["category"; "brand"; "minPrice"; "maxPrice"; "sortBy"])
  /\ (params = [] -> getAllProducts_url filters sortBy = "/products")
  /\ (params <> [] ->
        getAllProducts_url filters sortBy = "/products?" ++ URLSearchParams_toString params)
  /\ (forall api : Instance,
        getAllProducts api filters sortBy
        = (response <- get_products api (getAllProducts_url filters sortBy) ;;
           Resolved (map transformProduct (br_data (ar_data response))))).
Proof.
  cbv zeta. rewrite getAllProducts_params_eq.
  repeat match goal with |- _ /\ _ => split end.
  - intros v. rewrite !in_app_iff, !In_append_if, In_sortBy_entry.
    setoid_rewrite truthy_string_true. split.
    + intros [[_ (a & Ha & Ht & ->)] | [[H _] | [[H _] | [[H _] | [H _]]]]];
        try discriminate H. now split.
    + intros [Hv Hne]. left. split; [reflexivity|]. eauto.
  - intros v. rewrite !in_app_iff, !In_append_if, In_sortBy_entry.
    setoid_rewrite truthy_string_true. split.
    + intros [[H _] | [[_ (a & Ha & Ht & ->)] | [[H _] | [[H _] | [H _]]]]];
        try discriminate H. now split.
    + intros [Hv Hne]. right; left. split; [reflexivity|]. eauto.
  - intros v. rewrite !in_app_iff, !In_append_if, In_sortBy_entry.
    setoid_rewrite truthy_number_true. split.
    + intros [[H _] | [[H _] | [[_ Hx] | [[H _] | [H _]]]]];
        try discriminate H. exact Hx.
    + intros Hx. right; right; left. now split.
  - intros v. rewrite !in_app_iff, !In_append_if, In_sortBy_entry.
    setoid_rewrite truthy_number_true. split.
    + intros [[H _] | [[H _] | [[H _] | [[_ Hx] | [H _]]]]];
        try discriminate H. exact Hx.
    + intros Hx. right; right; right; left. now split.
  - intros v. rewrite !in_app_iff, !In_append_if, In_sortBy_entry. split.
    + intros [[H _] | [[H _] | [[H _] | [[H _] | [_ Hx]]]]];
        try discriminate H. exact Hx.
    + intros Hx. right; right; right; right. now split.
  - intros k v. rewrite !in_app_iff, !In_append_if, In_sortBy_entry.
    intros [[-> _] | [[-> _] | [[-> _] | [[-> _] | [-> _]]]]]; simpl; auto 6.
  - intros Hnil. unfold getAllProducts_url. cbv zeta.
    rewrite getAllProducts_params_eq, Hnil. reflexivity.
  - intros Hne. unfold getAllProducts_url. cbv zeta.
    rewrite getAllProducts_params_eq.
    destruct (truthy_string (URLSearchParams_toString _)) eqn:Ht; [reflexivity|].
    unfold truthy_string in Ht. apply negb_false_iff, String.eqb_eq in Ht.
    apply URLSearchParams_toString_empty in Ht. contradiction.
  - reflexivity.
Qed.

Lemma getAllProducts_query_witness :
  In ("maxPrice", "250") (getAllProducts_params (Some Examples.nike_under_250) (Some price_asc))
  /\ getAllProducts_url (Some Examples.nike_under_250) (Some price_asc)
     = "/products?brand=Nike&maxPrice=250&sortBy=price_asc".
Proof.
  split.
  - apply (proj1 (proj2 (proj2 (proj2
             (getAllProducts_query (Some Examples.nike_under_250) (Some price_asc)))))).
    exists 250%Z. repeat split. discriminate.
  - apply (proj1 (proj2 (proj2 (proj2 (proj2 (proj2 (proj2 (proj2
             (getAllProducts_query (Some Examples.nike_under_250) (Some price_asc)))))))))).
    discriminate.
Defined.

End ApiProperties.

(* ------------------------------------------------------------------ *)

Section AuthProperties.

Import Js Auth.

Lemma not_null_truthy (payload : option User) :
  negb (negb (truthy_opt truthy_user payload)) = not_null payload.
Proof. now destruct payload. Qed.

(** C3: in every state the provider can reach, [isAuthenticated] is the
    non-nullness of [user]; SET_USER sets it to the non-nullness of the
    payload, LOGOUT clears both, and SET_LOADING, SET_ERROR and unknown
    actions leave both as they are. *)
Theorem authReducer_invariant :
  (forall state, reachable state -> isAuthenticated state = not_null (user state))
  /\ (forall state payload,
        user (authReducer state (SET_USER payload)) = payload
        /\ isAuthenticated (authReducer state (SET_USER payload)) = not_null payload)
  /\ (forall state,
        user (authReducer state LOGOUT) = None
        /\ isAuthenticated (authReducer state LOGOUT) = false)
  /\ (forall state action,
        (exists b, action = SET_LOADING b) \/ (exists e, action = SET_ERROR e)
        \/ (exists t, action = UNKNOWN t) ->
        user (authReducer state action) = user state
        /\ isAuthenticated (authReducer state action) = isAuthenticated state).
Proof.
  repeat split.
  - intros state Hr. induction Hr as [|state action Hr IH]; [reflexivity|].
    destruct action as [b | payload | e | | t]; simpl; try exact IH; try reflexivity.
    apply not_null_truthy.
  - simpl. apply not_null_truthy.
  - destruct H as [[b ->] | [[e ->] | [t ->]]]; reflexivity.
  - destruct H as [[b ->] | [[e ->] | [t ->]]]; reflexivity.
Qed.

Lemma authReducer_invariant_witness :
  isAuthenticated (authReducer (authReducer initialState (SET_LOADING true)) (SET_USER None))
  = not_null (user (authReducer (authReducer initialState (SET_LOADING true)) (SET_USER None)))
  /\ user (authReducer initialState (SET_ERROR (Some "Failed to check session")))
     = user initialState.
Proof.
  split.
  - apply (proj1 authReducer_invariant).
    apply reachable_dispatch, reachable_dispatch, reachable_initial.
  - apply (proj2 (proj2 (proj2 authReducer_invariant))).
    right; left. now exists (Some "Failed to check session").
Defined.

(** C8: SET_ERROR writes [error] and clears [isLoading] and keeps [user] and
    [isAuthenticated]; LOGOUT gives the same state whatever the state before:
    no user, not authenticated, not loading, no error. *)
Theorem authReducer_frame (state : AuthState) :
  (forall payload,
     authReducer state (SET_ERROR payload)
     = {| user := user state;
          isAuthenticated := isAuthenticated state;
          isLoading := false;
          error := payload |})
  /\ authReducer state LOGOUT
     = {| user := None; isAuthenticated := false; isLoading := false; error := None |}
  /\ (forall other : AuthState, authReducer state LOGOUT = authReducer other LOGOUT).
Proof.
  repeat split.
Qed.

End AuthProperties.

(* ------------------------------------------------------------------ *)

Section SearchBarProperties.

Import SearchBar.
Local Open Scope list_scope.

Lemma trimStart_nil_iff (s : jsstring) :
  trimStart s = [] <-> forallb isWhiteSpace s = true.
Proof.
  induction s as [|c rest IH]; simpl.
  - split; reflexivity.
  - destruct (isWhiteSpace c); simpl; [exact IH|].
    split; discriminate.
Qed.

(** [trimStart] takes whitespace off the front, and nothing else. *)
Lemma trimStart_decompose (s : jsstring) :
  exists pre, s = pre ++ trimStart s /\ forallb isWhiteSpace pre = true.
Proof.
  induction s as [|c rest (pre & Hs & Hpre)]; simpl.
  - now exists [].
  - destruct (isWhiteSpace c) eqn:Hc.
    + exists (c :: pre). simpl. rewrite Hc, Hpre. split; [congruence|reflexivity].
    + now exists [].
Qed.

Lemma trimStart_head (s : jsstring) (c : code_unit) (rest : jsstring) :
  trimStart s = c :: rest -> isWhiteSpace c = false.
Proof.
  induction s as [|d s' IH]; simpl; [discriminate|].
  destruct (isWhiteSpace d) eqn:Hd; [exact IH|].
  intros H. injection H as <- _. exact Hd.
Qed.

Lemma forallb_rev {A : Type} (f : A -> bool) (l : list A) :
  forallb f (rev l) = forallb f l.
Proof.
  induction l as [|a l IH]; simpl; [reflexivity|].
  rewrite forallb_app, IH. simpl. rewrite andb_true_r. apply andb_comm.
Qed.

(** The trimmed form is empty exactly for the strings made of whitespace
    only, the empty string among them. *)
Lemma trim_nil_iff (s : jsstring) :
  trim s = [] <-> forallb isWhiteSpace s = true.
Proof.
  unfold trim, trimEnd. split.
  - intros H.
    apply (f_equal (@rev code_unit)) in H. rewrite rev_involutive in H. simpl in H.
    apply trimStart_nil_iff in H. rewrite forallb_rev in H.
    destruct (trimStart s) as [|c rest] eqn:Hs.
    + now apply trimStart_nil_iff.
    + apply trimStart_head in Hs. simpl in H. rewrite Hs in H. discriminate.
  - intros H. apply trimStart_nil_iff in H. now rewrite H.
Qed.

(** [trim] takes whitespace off both ends, and nothing else. *)
Lemma trim_decompose (s : jsstring) :
  exists pre post,
    s = pre ++ trim s ++ post
    /\ forallb isWhiteSpace pre = true /\ forallb isWhiteSpace post = true.
Proof.
  destruct (trimStart_decompose s) as (pre & Hs & Hpre).
  destruct (trimStart_decompose (rev (trimStart s))) as (post & Hr & Hpost).
  exists pre, (rev post). repeat split.
  - unfold trim, trimEnd. rewrite <- rev_app_distr, <- Hr, rev_involutive. exact Hs.
  - exact Hpre.
  - now rewrite forallb_rev.
Qed.

Lemma truthy_true (s : jsstring) : truthy s = true <-> s <> [].
Proof. destruct s; simpl; split; congruence. Qed.

(** C4: the submit button is disabled exactly when the trimmed input is
    empty; a submit calls [onSearch] once, with the trimmed input, when that
    is not empty, and does not call it when the input is empty or all
    whitespace. *)
Theorem SearchBar_submit (state : State) :
  (submit_disabled state = true <-> trim (query state) = [])
  /\ (trim (query state) <> [] -> handleSubmit state = [trim (query state)])
  /\ (trim (query state) = [] -> handleSubmit state = [])
  /\ (query state = [] \/ forallb isWhiteSpace (query state) = true ->
      handleSubmit state = [] /\ submit_disabled state = true).
Proof.
  unfold submit_disabled, handleSubmit.
  repeat split.
  - rewrite negb_true_iff. destruct (trim (query state)); [reflexivity | discriminate].
  - now intros ->.
  - intros H. apply truthy_true in H. now rewrite H.
  - now intros ->.
  - destruct H as [H | H]; [rewrite H; reflexivity|].
    apply trim_nil_iff in H. now rewrite H.
  - destruct H as [H | H]; [rewrite H; reflexivity|].
    apply trim_nil_iff in H. now rewrite H.
Qed.

(** Two spaces, then "tv", then a line feed: one call, with "tv"; a tab and
    a no-break space: no call, and the button is disabled. *)
Lemma SearchBar_submit_witness :
  handleSubmit {| query := [32; 32; 116; 118; 10]%N; focused := true |} = [[116; 118]%N]
  /\ handleSubmit {| query := [9; 160]%N; focused := true |} = []
  /\ submit_disabled {| query := [9; 160]%N; focused := true |} = true.
Proof.
  split.
  - apply (proj1 (proj2 (SearchBar_submit {| query := [32; 32; 116; 118; 10]%N;
                                             focused := true |}))).
    discriminate.
  - apply (proj2 (proj2 (proj2 (SearchBar_submit {| query := [9; 160]%N;
                                                    focused := true |})))).
    now right.
Defined.

End SearchBarProperties.

(* ------------------------------------------------------------------ *)

Section LoadingSpinnerProperties.

Import Js LoadingSpinner.

(** C9: the message the spinner shows is the default text for an undefined
    argument, nothing for the empty string, and the argument itself for any
    other string. *)
Theorem LoadingSpinner_message (message : option string) :
  (message = None ->
     displayMessage message = Some "Loading..."
     /\ rendered_message message = Some "Loading...")
  /\ (message = Some "" ->
        displayMessage message = None /\ rendered_message message = None)
  /\ (forall m, message = Some m -> m <> "" ->
        displayMessage message = Some m /\ rendered_message message = Some m)
  /\ (message = None \/ message = Some "" \/ exists m, message = Some m /\ m <> "").
Proof.
  split; [|split; [|split]].
  - now intros ->.
  - now intros ->.
  - intros m -> Hne. unfold rendered_message, truthy_string, displayMessage.
    apply String.eqb_neq in Hne. rewrite Hne. simpl. rewrite Hne. now split.
  - destruct message as [m|]; [|now left].
    right. destruct (String.eqb_spec m ""); [left; congruence | right; eauto].
Qed.

Lemma LoadingSpinner_message_witness :
  rendered_message None = Some "Loading..."
  /\ rendered_message (Some "") = None
  /\ rendered_message (Some "We are fetching your results...")
     = Some "We are fetching your results...".
Proof.
  split; [|split].
  - apply (proj1 (LoadingSpinner_message None)). reflexivity.
  - apply (proj1 (proj2 (LoadingSpinner_message (Some "")))). reflexivity.
  - apply (proj1 (proj2 (proj2 (LoadingSpinner_message
                                  (Some "We are fetching your results..."))))
             "We are fetching your results...");
      [reflexivity | discriminate].
Defined.

End LoadingSpinnerProperties.

(* ------------------------------------------------------------------ *)

Section AppProperties.

Import Js Api App.

(** What the two halves of [handleSearch] do to the product list. *)
Lemma products_lower_flag (call : SearchCall) (s : AppState) :
  products (lower_flag call s) = products s.
Proof. unfold lower_flag. now destruct (isFilterOperation call). Qed.

Lemma products_begin (s : AppState) (call : SearchCall) :
  products (handleSearch_begin s call) = products s.
Proof.
  unfold handleSearch_begin, raise_flag. now destruct (isFilterOperation call).
Qed.

Lemma products_settle_rejected (call : SearchCall) (err : thrown) (s : AppState) :
  products (handleSearch_settle call (Rejected err) s) = products s.
Proof. unfold handleSearch_settle. now rewrite products_lower_flag. Qed.

Lemma products_settle_resolved (call : SearchCall) (ps : list Product) (s : AppState) :
  products (handleSearch_settle call (Resolved ps) s) = ps.
Proof.
  unfold handleSearch_settle. rewrite products_lower_flag.
  destruct (newFilters call) as [f|], (newSortBy call) as [k|]; simpl;
    try destruct (truthy_sortBy k); reflexivity.
Qed.











Lemma run_app (s : AppState) (evs evs' : list event) :
  run s (evs ++ evs') = run (run s evs) evs'.
Proof. apply fold_left_app. Qed.

(** C7, as stated, fails: when the answer to the first of two overlapping
    searches arrives after the answer to the second, the products shown are
    those of the first search, not of the one issued last. *)
Lemma last_issued_does_not_win :
  products (run initialState
              (out_of_order Examples.first_search Examples.second_search
                 Examples.first_results Examples.second_results))
  = Examples.first_results
  /\ Examples.first_results <> Examples.second_results
  /\ ~ last_issued_wins_as_stated.
Proof.
  split; [reflexivity|]. split; [discriminate|].
  intros H.
  destruct (H initialState Examples.first_search Examples.second_search
              Examples.first_results Examples.second_results) as [_ Hout].
  discriminate Hout.
Qed.

(** C7 (amended): of two overlapping searches the products shown in the end
    are those of the answer that arrives last, in whichever order the two
    were issued; in general, after any sequence of calls and arrivals, a
    resolved arrival sets the products, and calls and rejected arrivals keep
    them. No call is cancelled: the answer to the earlier call is applied
    when it comes. *)
Theorem last_arrival_wins :
  (forall (s : AppState) (first second : SearchCall) (r1 r2 : list Product),
     products (run s (in_order first second r1 r2)) = r2
     /\ products (run s (out_of_order first second r1 r2)) = r1)
  /\ (forall (s : AppState) (evs : list event) (call : SearchCall) (ps : list Product),
        products (run s (evs ++ [Arrive call (Resolved ps)])) = ps)
  /\ (forall (s : AppState) (evs : list event) (call : SearchCall) (err : thrown),
        products (run s (evs ++ [Arrive call (Rejected err)])) = products (run s evs))
  /\ (forall (s : AppState) (evs : list event) (call : SearchCall),
        products (run s (evs ++ [Issue call])) = products (run s evs)).
Proof.
  split; [|split; [|split]].
  - intros s first second r1 r2. unfold in_order, out_of_order, run. simpl.
    now rewrite !products_settle_resolved.
  - intros s evs call ps. rewrite run_app. apply products_settle_resolved.
  - intros s evs call err. rewrite run_app. apply products_settle_rejected.
  - intros s evs call. rewrite run_app. apply products_begin.
Qed.

End AppProperties.

(* ------------------------------------------------------------------ *)
(** ** More of services/api.ts *)

Section ApiErrors.

Import Js Api.

Lemma getErrorMessage_truthy (error : thrown) :
  truthy_string (getErrorMessage error) = true.
Proof.
  destruct error as [e| | |]; try reflexivity. simpl.
  destruct (strict_eq_number (response_status e) 404); [reflexivity|].
  destruct (strict_eq_number (response_status e) 500); [reflexivity|].
  destruct (strict_eq_string (code e) "ECONNABORTED"); [reflexivity|].
  destruct (strict_eq_string (code e) "ERR_NETWORK"); [reflexivity|].
  destruct (response_message e) as [m|]; [|reflexivity].
  destruct (truthy_string m) eqn:Hm; [exact Hm | reflexivity].
Qed.

(** X1: [getErrorMessage] never returns the empty string: a backend message
    is used only when it is not empty, and the fixed texts are not empty. So
    an error it produced is truthy wherever it is tested. *)
Theorem getErrorMessage_nonempty (error : thrown) :
  getErrorMessage error <> "" /\ truthy_string (getErrorMessage error) = true.
Proof.
  split; [|apply getErrorMessage_truthy].
  apply truthy_string_true, getErrorMessage_truthy.
Qed.

(** X2: no function of [productApi] catches: when the request is rejected,
    the function is rejected with the very value the request was rejected
    with, so that [getErrorMessage] in the caller sees the status and the
    code of the failure. *)
Theorem productApi_rejects_with_cause (api : Instance) (cause : thrown) :
  (forall filters sortBy,
     get_products api (getAllProducts_url filters sortBy) = Rejected cause ->
     getAllProducts api filters sortBy = Rejected cause)
  /\ (forall query,
        get_products api (ProductUrls.searchProducts_url query) = Rejected cause ->
        searchProducts api query = Rejected cause)
  /\ (forall options,
        post_search api "/search" options = Rejected cause ->
        aiSearch api options = Rejected cause)
  /\ (forall product_id,
        get_product api ("/products/" ++ product_id) = Rejected cause ->
        getProductById api product_id = Rejected cause)
  /\ (forall category,
        get_products api ("/products/category/" ++ category) = Rejected cause ->
        getProductsByCategory api category = Rejected cause)
  /\ (get_products api "/products/featured" = Rejected cause ->
      getFeaturedProducts api = Rejected cause).
Proof.
  unfold getAllProducts, searchProducts, aiSearch, getProductById,
    getProductsByCategory, getFeaturedProducts, ProductUrls.searchProducts_url.
  repeat split; intros; match goal with H : _ = Rejected _ |- _ => now rewrite H end.
Qed.

Lemma productApi_rejects_with_cause_witness :
  aiSearch Examples.backend_down
    (App.searchOptions App.initialState Examples.first_search)
  = Rejected (Axios Examples.timeout_error).
Proof.
  apply (proj1 (proj2 (proj2
           (productApi_rejects_with_cause Examples.backend_down
              (Axios Examples.timeout_error))))).
  reflexivity.
Defined.

End ApiErrors.

Section UrlProperties.

Import Js Api Url.

Lemma occurrences_app (c : ascii) (s t : string) :
  occurrences c (s ++ t) = occurrences c s + occurrences c t.
Proof.
  induction s as [|d s IH]; simpl; [reflexivity|]. rewrite IH. lia.
Qed.

Lemma hex_digit_plain (n : N) : urlencoded_plain (N_of_ascii (hex_digit n)) = true.
Proof.
  unfold hex_digit. remember (N.to_nat n) as k eqn:Hk. clear Hk.
  do 16 (destruct k as [|k]; [reflexivity|]). reflexivity.
Qed.

Lemma eqb_plain (d c : ascii) :
  urlencoded_plain (N_of_ascii d) = false ->
  urlencoded_plain (N_of_ascii c) = true ->
  Ascii.eqb d c = false.
Proof.
  intros Hd Hc. destruct (Ascii.eqb_spec d c) as [->|]; congruence.
Qed.

(** The serializer writes plain bytes, [+] and percent escapes, and nothing
    else. *)
Lemma urlencode_byte_reserved (d c : ascii) :
  urlencoded_plain (N_of_ascii d) = false -> d <> "+"%char -> d <> "%"%char ->
  occurrences d (urlencode_byte c) = 0.
Proof.
  intros Hd Hplus Hpct. unfold urlencode_byte.
  destruct (urlencoded_plain (N_of_ascii c)) eqn:Hc.
  - simpl. now rewrite (eqb_plain d c).
  - destruct (N_of_ascii c =? 32)%N; simpl.
    + apply Ascii.eqb_neq in Hplus. now rewrite Hplus.
    + apply Ascii.eqb_neq in Hpct. rewrite Hpct.
      now rewrite !(eqb_plain d (hex_digit _)) by (assumption || apply hex_digit_plain).
Qed.

Lemma urlencode_reserved (d : ascii) (s : string) :
  urlencoded_plain (N_of_ascii d) = false -> d <> "+"%char -> d <> "%"%char ->
  occurrences d (urlencode s) = 0.
Proof.
  intros Hd Hplus Hpct. induction s as [|c s IH]; simpl; [reflexivity|].
  now rewrite occurrences_app, IH, urlencode_byte_reserved.
Qed.

Lemma occurrences_serialize_pair (p : string * string) :
  occurrences "=" (serialize_pair p) = 1
  /\ occurrences "&" (serialize_pair p) = 0
  /\ occurrences "?" (serialize_pair p) = 0
  /\ occurrences "#" (serialize_pair p) = 0.
Proof.
  unfold serialize_pair.
  rewrite !occurrences_app, !urlencode_reserved by (reflexivity || discriminate).
  repeat split.
Qed.

Lemma occurrences_toString (params : URLSearchParams) :
  occurrences "=" (URLSearchParams_toString params) = length params
  /\ occurrences "&" (URLSearchParams_toString params) = pred (length params)
  /\ occurrences "?" (URLSearchParams_toString params) = 0
  /\ occurrences "#" (URLSearchParams_toString params) = 0.
Proof.
  unfold URLSearchParams_toString.
  induction params as [|p [|q rest] IH].
  - repeat split.
  - simpl. destruct (occurrences_serialize_pair p) as (-> & -> & -> & ->). repeat split.
  - destruct IH as (IHe & IHa & IHq & IHh).
    change (String.concat "&" (map serialize_pair (p :: q :: rest)))
      with (serialize_pair p ++ "&" ++ String.concat "&" (map serialize_pair (q :: rest))).
    rewrite !occurrences_app, IHe, IHa, IHq, IHh.
    destruct (occurrences_serialize_pair p) as (-> & -> & -> & ->).
    simpl. repeat split; lia.
Qed.

Lemma append_if_cases {A : Type} (t : A -> bool) (render : A -> string) (name : string)
  (field : option A) :
  append_if t render name field [] = []
  \/ exists v, append_if t render name field [] = [(name, v)].
Proof.
  unfold append_if, append.
  destruct field as [a|]; [destruct (t a)|]; simpl; eauto.
Qed.

Lemma sortBy_entry_cases (sortBy : option SortBy) :
  sortBy_entry sortBy = [] \/ exists v, sortBy_entry sortBy = [("sortBy", v)].
Proof.
  unfold sortBy_entry.
  destruct sortBy as [k|]; [|now left].
  destruct (truthy_string (SortBy_literal k) && negb (SortBy_literal k =? "relevance"));
    eauto.
Qed.

(** X3: whatever the filter values contain, the URL of [getAllProducts] has
    one [=] per appended parameter, one [&] between two of them, one [?] when
    there is a parameter and none otherwise, and no [#]: a value cannot add a
    parameter or cut the query short. No parameter name is sent twice, and
    there are at most five. *)
Theorem getAllProducts_url_wellformed (filters : option SearchFilters)
  (sortBy : option SortBy) :
  let params := getAllProducts_params filters sortBy in
  let url := getAllProducts_url filters sortBy in
  occurrences "=" url = length params
  /\ occurrences "&" url = pred (length params)
  /\ occurrences "?" url = (if length params =? 0 then 0 else 1)%nat
  /\ occurrences "#" url = 0
  /\ NoDup (map fst params)
  /\ length params <= 5.
Proof.
  cbv zeta.
  destruct (occurrences_toString (getAllProducts_params filters sortBy))
    as (He & Ha & Hq & Hh).
  assert (Hurl : getAllProducts_url filters sortBy
                 = if (length (getAllProducts_params filters sortBy) =? 0)%nat
                   then "/products"
                   else "/products?"
                        ++ URLSearchParams_toString (getAllProducts_params filters sortBy)).
  { unfold getAllProducts_url. cbv zeta.
    destruct (getAllProducts_params filters sortBy) as [|p rest] eqn:Hp; [reflexivity|].
    destruct (truthy_string (URLSearchParams_toString (p :: rest))) eqn:Ht; [reflexivity|].
    unfold truthy_string in Ht. apply negb_false_iff, String.eqb_eq in Ht.
    apply URLSearchParams_toString_empty in Ht. discriminate. }
  rewrite Hurl.
  split; [|split; [|split; [|split; [|split]]]].
  - destruct (length _ =? 0)%nat eqn:Hl.
    + apply Nat.eqb_eq in Hl. now rewrite Hl.
    + now rewrite occurrences_app, He.
  - destruct (length _ =? 0)%nat eqn:Hl.
    + apply Nat.eqb_eq in Hl. now rewrite Hl.
    + now rewrite occurrences_app, Ha.
  - destruct (length _ =? 0)%nat eqn:Hl; [reflexivity|].
    now rewrite occurrences_app, Hq.
  - destruct (length _ =? 0)%nat eqn:Hl; [reflexivity|].
    now rewrite occurrences_app, Hh.
  - rewrite getAllProducts_params_eq.
    destruct (append_if_cases truthy_string (fun s => s) "category"
                (optional_field filters category)) as [-> | [? ->]];
    destruct (append_if_cases truthy_string (fun s => s) "brand"
                (optional_field filters brand)) as [-> | [? ->]];
    destruct (append_if_cases truthy_number number_toString "minPrice"
                (optional_field filters minPrice)) as [-> | [? ->]];
    destruct (append_if_cases truthy_number number_toString "maxPrice"
                (optional_field filters maxPrice)) as [-> | [? ->]];
    destruct (sortBy_entry_cases sortBy) as [-> | [? ->]];
    simpl; repeat (constructor; [simpl; intuition discriminate|]); constructor.
  - rewrite getAllProducts_params_eq.
    destruct (append_if_cases truthy_string (fun s => s) "category"
                (optional_field filters category)) as [-> | [? ->]];
    destruct (append_if_cases truthy_string (fun s => s) "brand"
                (optional_field filters brand)) as [-> | [? ->]];
    destruct (append_if_cases truthy_number number_toString "minPrice"
                (optional_field filters minPrice)) as [-> | [? ->]];
    destruct (append_if_cases truthy_number number_toString "maxPrice"
                (optional_field filters maxPrice)) as [-> | [? ->]];
    destruct (sortBy_entry_cases sortBy) as [-> | [? ->]];
    simpl; lia.
Qed.

End UrlProperties.

Section UrlComponents.

Import Js Api Url ProductUrls.

Lemma hex_digit_unreserved (n : N) : uricomponent_plain (N_of_ascii (hex_digit n)) = true.
Proof.
  unfold hex_digit. remember (N.to_nat n) as k eqn:Hk. clear Hk.
  do 16 (destruct k as [|k]; [reflexivity|]). reflexivity.
Qed.

Lemma encodeURIComponent_reserved (d : ascii) (s : string) :
  uricomponent_plain (N_of_ascii d) = false -> d <> "%"%char ->
  occurrences d (encodeURIComponent s) = 0.
Proof.
  intros Hd Hpct. apply Ascii.eqb_neq in Hpct.
  assert (Hne : forall c, uricomponent_plain (N_of_ascii c) = true -> Ascii.eqb d c = false).
  { intros c Hc. destruct (Ascii.eqb_spec d c) as [->|]; congruence. }
  induction s as [|c s IH]; simpl; [reflexivity|].
  rewrite occurrences_app, IH.
  destruct (uricomponent_plain (N_of_ascii c)) eqn:Hc; simpl.
  - now rewrite (Hne c Hc).
  - now rewrite Hpct, !Hne by apply hex_digit_unreserved.
Qed.

(** One byte out and back. *)
Lemma percent_decode_step (c : ascii) (rest : string) :
  percent_decode
    ((if uricomponent_plain (N_of_ascii c) then String c ""
      else String "%"%char
             (String (hex_digit (N_of_ascii c / 16))
                (String (hex_digit (N_of_ascii c mod 16)) ""))) ++ rest)
  = match percent_decode rest with
    | Some t => Some (String c t)
    | None => None
    end.
Proof.
  destruct c as [[] [] [] [] [] [] [] []]; reflexivity.
Qed.

Lemma percent_decode_encodeURIComponent (s : string) :
  percent_decode (encodeURIComponent s) = Some s.
Proof.
  induction s as [|c s IH]; [reflexivity|].
  change (encodeURIComponent (String c s))
    with ((if uricomponent_plain (N_of_ascii c) then String c ""
           else String "%"%char
                  (String (hex_digit (N_of_ascii c / 16))
                     (String (hex_digit (N_of_ascii c mod 16)) "")))
          ++ encodeURIComponent s).
  now rewrite percent_decode_step, IH.
Qed.

(** X4: the URL of [searchProducts] carries the query as one component:
    whatever the query contains, the URL has exactly one [?] and one [=] and
    no [&], [#] or space, percent-decoding the component gives the query
    back byte for byte, and two different queries never share a URL. *)
Theorem searchProducts_url_component (query : string) :
  occurrences "?" (searchProducts_url query) = 1
  /\ occurrences "=" (searchProducts_url query) = 1
  /\ occurrences "&" (searchProducts_url query) = 0
  /\ occurrences "#" (searchProducts_url query) = 0
  /\ occurrences " " (searchProducts_url query) = 0
  /\ percent_decode (encodeURIComponent query) = Some query
  /\ (forall other, query <> other -> searchProducts_url query <> searchProducts_url other)
  /\ (forall (api : Instance),
        searchProducts api query
        = (response <- get_products api (searchProducts_url query) ;;
           Resolved (map transformProduct (br_data (ar_data response))))).
Proof.
  unfold searchProducts_url.
  rewrite !occurrences_app, !encodeURIComponent_reserved by (reflexivity || discriminate).
  repeat split.
  - apply percent_decode_encodeURIComponent.
  - intros other Hne H. apply Hne. simpl in H. injection H as H.
    apply (f_equal percent_decode) in H.
    rewrite !percent_decode_encodeURIComponent in H. congruence.
Qed.

Lemma searchProducts_url_component_witness :
  ProductUrls.searchProducts_url "tv & audio" = "/products/search?q=tv%20%26%20audio"
  /\ ProductUrls.searchProducts_url "tv & audio" <> ProductUrls.searchProducts_url "tv".
Proof.
  split; [reflexivity|].
  apply (proj1 (proj2 (proj2 (proj2 (proj2 (proj2 (proj2
           (searchProducts_url_component "tv & audio")))))))).
  discriminate.
Defined.

End UrlComponents.

Section HistoryProperties.

Import Js Api SearchHistoryApi.

Lemma getHistory_params_eq (options : SearchHistoryOptions) :
  getHistory_params options
  = (append_if truthy_number number_toString "page" (page options) []
     ++ append_if truthy_number number_toString "limit" (limit options) []
     ++ append_if truthy_boolean boolean_toString "successOnly" (successOnly options) []
     ++ append_if truthy_string (fun s => s) "query" (query options) []
     ++ append_if truthy_string (fun s => s) "startDate" (startDate options) []
     ++ append_if truthy_string (fun s => s) "endDate" (endDate options) [])%list.
Proof.
  unfold getHistory_params. cbv zeta.
  rewrite (append_if_app _ _ "endDate"), (append_if_app _ _ "startDate"),
    (append_if_app _ _ "query"), (append_if_app _ _ "successOnly"),
    (append_if_app _ _ "limit").
  now rewrite <- !app_assoc.
Qed.

Lemma number_entry (field : option number) (v : string) :
  (exists a, field = Some a /\ truthy_number a = true /\ v = number_toString a)
  <-> (exists n, field = Some n /\ n <> 0%Z /\ v = number_toString n).
Proof. now setoid_rewrite truthy_number_true. Qed.

Lemma string_entry (field : option string) (v : string) :
  (exists a, field = Some a /\ truthy_string a = true /\ v = a)
  <-> field = Some v /\ v <> "".
Proof.
  setoid_rewrite truthy_string_true. split.
  - intros (a & Ha & Hne & ->). now split.
  - intros [Hf Hne]. eauto.
Qed.

Lemma boolean_entry (field : option bool) (v : string) :
  (exists a, field = Some a /\ truthy_boolean a = true /\ v = boolean_toString a)
  <-> field = Some true /\ v = "true".
Proof.
  unfold truthy_boolean. split.
  - intros (a & Ha & -> & ->). now split.
  - intros [Hf ->]. exists true. now repeat split.
Qed.

(** X5: [getHistory] always asks for /search/history? followed by the
    serialized parameters, also when there are none. A page or limit of 0, a
    [successOnly] of false and an empty query or date are left out like
    missing ones, so the [successOnly] parameter is only ever sent as
    [true]. *)
Theorem getHistory_query (options : SearchHistoryOptions) :
  let params := getHistory_params options in
  (forall v, In ("page", v) params
             <-> exists n, page options = Some n /\ n <> 0%Z /\ v = number_toString n)
  /\ (forall v, In ("limit", v) params
                <-> exists n, limit options = Some n /\ n <> 0%Z /\ v = number_toString n)
  /\ (forall v, In ("successOnly", v) params
                <-> successOnly options = Some true /\ v = "true")
  /\ (forall v, In ("query", v) params <-> query options = Some v /\ v <> "")
  /\ (forall v, In ("startDate", v) params <-> startDate options = Some v /\ v <> "")
  /\ (forall v, In ("endDate", v) params <-> endDate options = Some v /\ v <> "")
  /\ (params = [] -> getHistory_url options = "/search/history?")
  /\ Url.occurrences "?" (getHistory_url options) = 1
  /\ Url.occurrences "=" (getHistory_url options) = length params.
Proof.
  cbv zeta.
  repeat match goal with |- _ /\ _ => split end;
    try (intros v; rewrite getHistory_params_eq, !in_app_iff, !In_append_if,
           <- ?number_entry, <- ?string_entry, <- ?boolean_entry;
         split;
         [ intros [[H Hx] | [[H Hx] | [[H Hx] | [[H Hx] | [[H Hx] | [H Hx]]]]]];
           try discriminate H; exact Hx
         | intros Hx; intuition ]).
  - intros Hnil. unfold getHistory_url. now rewrite Hnil.
  - unfold getHistory_url. rewrite occurrences_app.
    now destruct (occurrences_toString (getHistory_params options)) as (_ & _ & -> & _).
  - unfold getHistory_url. rewrite occurrences_app.
    now destruct (occurrences_toString (getHistory_params options)) as (-> & _).
Qed.

(** The first request of the history panel, and a request for page 0. *)
Lemma getHistory_query_witness :
  getHistory_url (panel_defaults 1%Z) = "/search/history?page=1&limit=10"
  /\ getHistory_url noOptions = "/search/history?".
Proof.
  split; [reflexivity|].
  apply (proj1 (proj2 (proj2 (proj2 (proj2 (proj2 (proj2 (getHistory_query noOptions)))))))).
  reflexivity.
Defined.

End HistoryProperties.

(* ------------------------------------------------------------------ *)
(** ** The provider's functions *)

Section AuthProviderProperties.

Import Js Auth AuthProvider.

Local Arguments errorMessage : simpl never.

Lemma or_else_nonempty (a : option string) (b : string) :
  b <> "" -> or_else a b <> "".
Proof.
  intros Hb. unfold or_else. destruct a as [s|]; [|exact Hb].
  destruct (truthy_string s) eqn:Hs; [|exact Hb]. now apply truthy_string_true.
Qed.

Lemma or_else_first (s b : string) : s <> "" -> or_else (Some s) b = s.
Proof.
  intros Hs. unfold or_else. apply truthy_string_true in Hs. now rewrite Hs.
Qed.

Lemma or_else_second (a : option string) (b : string) :
  a = None \/ a = Some "" -> or_else a b = b.
Proof. now intros [-> | ->]. Qed.

Lemma errorMessage_nonempty (error : Caught) (fallback : string) :
  fallback <> "" -> errorMessage error fallback <> "".
Proof. intros H. unfold errorMessage. now apply or_else_nonempty. Qed.

(** X6: [checkSession] never rejects and always ends with [isLoading]
    false. The user is signed in exactly when the session answer says
    authenticated and carries a user; any other answer signs the user out; a
    failed request keeps the user as it was and sets the error to 'Failed to
    check session'. *)
Theorem checkSession_outcome (state : AuthState) (session : Settled SessionResponse) :
  completion (checkSession session) = Fulfilled tt
  /\ isLoading (after state (checkSession session)) = false
  /\ (forall response u,
        session = Fulfilled response ->
        session_authenticated response = true -> session_user response = Some u ->
        user (after state (checkSession session)) = Some u
        /\ isAuthenticated (after state (checkSession session)) = true
        /\ error (after state (checkSession session)) = None)
  /\ (forall response,
        session = Fulfilled response ->
        session_authenticated response = false \/ session_user response = None ->
        user (after state (checkSession session)) = None
        /\ isAuthenticated (after state (checkSession session)) = false
        /\ error (after state (checkSession session)) = None)
  /\ (forall cause,
        session = Failed cause ->
        user (after state (checkSession session)) = user state
        /\ isAuthenticated (after state (checkSession session)) = isAuthenticated state
        /\ error (after state (checkSession session)) = Some "Failed to check session").
Proof.
  split; [|split; [|split; [|split]]].
  - destruct session as [response|cause]; [|reflexivity].
    unfold checkSession.
    now destruct (session_authenticated response
                  && truthy_opt truthy_user (session_user response)).
  - destruct session as [response|cause]; [|reflexivity].
    unfold checkSession.
    now destruct (session_authenticated response
                  && truthy_opt truthy_user (session_user response)).
  - intros response u -> Ha Hu. unfold checkSession. rewrite Ha, Hu. now cbn.
  - intros response -> H. unfold checkSession.
    destruct H as [-> | ->]; [now cbn|].
    rewrite andb_false_r. now cbn.
  - intros cause ->. now cbn.
Qed.

Lemma checkSession_outcome_witness :
  user (after initialState
          (checkSession (Fulfilled {| session_success := true;
                                      session_authenticated := false;
                                      session_user := Some ada |}))) = None
  /\ error (after initialState (checkSession (Failed offline)))
     = Some "Failed to check session".
Proof.
  split.
  - apply (proj1 (proj2 (proj2 (proj2 (checkSession_outcome initialState _)))) _ eq_refl).
    now left.
  - apply (proj2 (proj2 (proj2 (proj2 (checkSession_outcome initialState _)))) offline).
    reflexivity.
Defined.

(** X7: [login] and [register] resolve exactly when the backend answers
    with success and a user, and then that user is signed in, with no error
    and [isLoading] false. In every other case they reject: with the very
    error of the request when it failed, with a new [Error] otherwise; the
    user and [isAuthenticated] stay as they were, [isLoading] is false and
    the error is set to a text that is never empty. *)
Theorem signIn_outcome (fallback : string) (state : AuthState)
  (answer : Settled AuthResponse) :
  (forall response u,
     answer = Fulfilled response ->
     auth_success response = true -> auth_user response = Some u ->
     completion (signIn fallback answer) = Fulfilled tt
     /\ after state (signIn fallback answer)
        = {| user := Some u; isAuthenticated := true; isLoading := false; error := None |})
  /\ (completion (signIn fallback answer) = Fulfilled tt ->
      exists response u,
        answer = Fulfilled response /\ auth_success response = true
        /\ auth_user response = Some u)
  /\ (forall cause,
        answer = Failed cause -> completion (signIn fallback answer) = Failed cause)
  /\ (forall cause,
        completion (signIn fallback answer) = Failed cause ->
        fallback <> "" ->
        user (after state (signIn fallback answer)) = user state
        /\ isAuthenticated (after state (signIn fallback answer)) = isAuthenticated state
        /\ isLoading (after state (signIn fallback answer)) = false
        /\ exists text, error (after state (signIn fallback answer)) = Some text
                        /\ text <> "").
Proof.
  split; [|split; [|split]].
  - intros response u -> Hs Hu. unfold signIn. rewrite Hs, Hu. now cbn.
  - unfold signIn. destruct answer as [response|cause]; [|discriminate].
    destruct (auth_success response) eqn:Hs; [|discriminate].
    destruct (auth_user response) as [u|] eqn:Hu; [|discriminate].
    intros _. now exists response, u.
  - now intros cause ->.
  - intros cause Hc Hf. unfold signIn in *.
    destruct answer as [response|cause'].
    + destruct (auth_success response && truthy_opt truthy_user (auth_user response));
        [discriminate|].
      cbn. do 3 (split; [reflexivity|]).
      eexists. split; [reflexivity|]. now apply errorMessage_nonempty.
    + cbn. do 3 (split; [reflexivity|]).
      eexists. split; [reflexivity|]. now apply errorMessage_nonempty.
Qed.

Lemma signIn_outcome_witness :
  after initialState (login (Fulfilled welcome))
  = {| user := Some ada; isAuthenticated := true; isLoading := false; error := None |}
  /\ user (after (after initialState (login (Fulfilled welcome))) (login (Failed offline)))
     = Some ada.
Proof.
  split.
  - apply (proj1 (signIn_outcome "Login failed" initialState (Fulfilled welcome))
             welcome ada); reflexivity.
  - apply (proj2 (proj2 (proj2
             (signIn_outcome "Login failed"
                (after initialState (login (Fulfilled welcome))) (Failed offline))))
             offline); [reflexivity | discriminate].
Defined.

(** X8: the error text of a failed [login] or [register] is, in this order,
    the message of the backend's error body when it is not empty, the
    message of the error itself when that is not empty, and the fallback
    text; for an answer that is not a success it is the answer's message,
    or the fallback text when that is empty. *)
Theorem signIn_error_text (fallback : string) (state : AuthState) :
  (forall cause text,
     caught_response_message cause = Some text -> text <> "" ->
     error (after state (signIn fallback (Failed cause))) = Some text)
  /\ (forall cause,
        caught_response_message cause = None \/ caught_response_message cause = Some "" ->
        caught_message cause <> "" ->
        error (after state (signIn fallback (Failed cause))) = Some (caught_message cause))
  /\ (forall cause,
        caught_response_message cause = None \/ caught_response_message cause = Some "" ->
        caught_message cause = "" ->
        fallback <> "" ->
        error (after state (signIn fallback (Failed cause))) = Some fallback)
  /\ (forall response,
        auth_success response = false \/ auth_user response = None ->
        fallback <> "" ->
        error (after state (signIn fallback (Fulfilled response)))
        = Some (if auth_message response =? "" then fallback else auth_message response)).
Proof.
  split; [|split; [|split]].
  - intros cause text Hm Hne. cbn. unfold errorMessage. rewrite Hm.
    now rewrite (or_else_first text), or_else_first.
  - intros cause Hm Hne. cbn. unfold errorMessage.
    now rewrite (or_else_second _ _ Hm), or_else_first.
  - intros cause Hm He Hf. cbn. unfold errorMessage.
    rewrite (or_else_second _ _ Hm), He. reflexivity.
  - intros response Hr Hf. unfold signIn.
    assert (Hc : auth_success response && truthy_opt truthy_user (auth_user response) = false).
    { destruct Hr as [-> | ->]; [reflexivity | apply andb_false_r]. }
    rewrite Hc. cbn. unfold errorMessage. cbn.
    destruct (String.eqb_spec (auth_message response) "") as [-> | Hne].
    + cbn. now destruct (truthy_string fallback).
    + apply truthy_string_true in Hne. now rewrite !Hne.
Qed.

Lemma signIn_error_text_witness :
  error (after initialState (login (Failed wrong_password))) = Some "Invalid credentials"
  /\ error (after initialState (login (Failed offline))) = Some "Network Error"
  /\ error (after initialState (register (Fulfilled refused))) = Some "Registration failed".
Proof.
  split; [|split].
  - apply (proj1 (signIn_error_text "Login failed" initialState) wrong_password);
      [reflexivity | discriminate].
  - apply (proj1 (proj2 (signIn_error_text "Login failed" initialState)) offline);
      [now left | discriminate].
  - apply (proj2 (proj2 (proj2 (signIn_error_text "Registration failed" initialState)))
             refused); [now left | discriminate].
Defined.

End AuthProviderProperties.

Section AuthSessionProperties.

Import Js Auth AuthProvider UserMenu.

Local Arguments errorMessage : simpl never.

(** X9: [logout] signs the user out whether the request to the backend
    resolved or was rejected, and never rejects itself; so [handleLogout] of
    the user menu always closes the menu as well. *)
Theorem logout_always {A : Type} (answer : Settled A) (state : AuthState) (m : MenuState) :
  completion (logout answer) = Fulfilled tt
  /\ after state (logout answer)
     = {| user := None; isAuthenticated := false; isLoading := false; error := None |}
  /\ anchorEl (handleLogout (completion (logout answer)) m) = None
  /\ showLoginForm (handleLogout (completion (logout answer)) m) = showLoginForm m
  /\ showRegisterForm (handleLogout (completion (logout answer)) m) = showRegisterForm m.
Proof.
  destruct answer; repeat split.
Qed.

(** X10: [updatePreferences] replaces the preferences of the signed-in user
    by those of a successful answer and keeps id, name and email, clearing
    the error on the way; with nobody signed in, or an answer that is not a
    success, it changes nothing and still resolves; when the request fails it
    rejects with the error of the request, keeps the user and sets the error
    text. *)
Theorem updatePreferences_outcome (state : AuthState)
  (answer : Settled PreferencesResponse) :
  (forall response u,
     answer = Fulfilled response -> prefs_success response = true ->
     user state = Some u ->
     completion (updatePreferences state answer) = Fulfilled tt
     /\ after state (updatePreferences state answer)
        = {| user := Some (with_preferences u (prefs_preferences response));
             isAuthenticated := true; isLoading := false; error := None |}
     /\ user_id (with_preferences u (prefs_preferences response)) = user_id u
     /\ username (with_preferences u (prefs_preferences response)) = username u
     /\ email (with_preferences u (prefs_preferences response)) = email u
     /\ preferences (with_preferences u (prefs_preferences response))
        = prefs_preferences response)
  /\ (forall response,
        answer = Fulfilled response ->
        prefs_success response = false \/ user state = None ->
        completion (updatePreferences state answer) = Fulfilled tt
        /\ after state (updatePreferences state answer) = state)
  /\ (forall cause,
        answer = Failed cause ->
        completion (updatePreferences state answer) = Failed cause
        /\ user (after state (updatePreferences state answer)) = user state
        /\ isAuthenticated (after state (updatePreferences state answer))
           = isAuthenticated state
        /\ error (after state (updatePreferences state answer))
           = Some (errorMessage cause "Failed to update preferences")
        /\ errorMessage cause "Failed to update preferences" <> "").
Proof.
  split; [|split].
  - intros response u -> Hs Hu. unfold updatePreferences. rewrite Hu, Hs.
    repeat split.
  - intros response -> H. unfold updatePreferences.
    destruct (user state) as [u|]; [|now split].
    destruct H as [-> | H]; [now split | discriminate].
  - intros cause ->. repeat split.
    now apply errorMessage_nonempty.
Qed.

Lemma updatePreferences_outcome_witness :
  user (after (after initialState (login (Fulfilled welcome)))
          (updatePreferences (after initialState (login (Fulfilled welcome)))
             (Fulfilled dark)))
  = Some (with_preferences ada (prefs_preferences dark))
  /\ after initialState (updatePreferences initialState (Fulfilled dark)) = initialState.
Proof.
  split.
  - destruct (proj1 (updatePreferences_outcome
                       (after initialState (login (Fulfilled welcome))) (Fulfilled dark))
                dark ada eq_refl eq_refl eq_refl) as (_ & H & _).
    now rewrite H.
  - apply (proj1 (proj2 (updatePreferences_outcome initialState (Fulfilled dark))) dark).
    + reflexivity.
    + now right.
Defined.

Lemma authReducer_keeps (state : AuthState) (action : AuthAction) :
  provider_invariant state -> harmless action ->
  provider_invariant (authReducer state action).
Proof.
  intros [Ha He] Hh.
  destruct action as [b | payload | e | | t]; split; simpl;
    try assumption; try discriminate; try reflexivity.
  - now destruct payload.
  - intros text ->. now apply Hh.
Qed.

Lemma after_keeps (state : AuthState) (run : Run) :
  provider_invariant state -> Forall harmless (dispatched run) ->
  provider_invariant (after state run).
Proof.
  unfold after. generalize (dispatched run). intros actions.
  revert state. induction actions as [|a actions IH]; intros state Hs Hf; [exact Hs|].
  inversion Hf; subst. simpl. apply IH; [now apply authReducer_keeps | assumption].
Qed.

Lemma harmless_error (cause : Caught) (fallback : string) :
  fallback <> "" -> harmless (SET_ERROR (Some (errorMessage cause fallback))).
Proof.
  intros Hf text H. injection H as <-. now apply errorMessage_nonempty.
Qed.

Lemma signIn_harmless (fallback : string) (answer : Settled AuthResponse) :
  fallback <> "" -> Forall harmless (dispatched (signIn fallback answer)).
Proof.
  intros Hf. unfold signIn.
  destruct answer as [response|cause]; cbn.
  - destruct (auth_success response && truthy_opt truthy_user (auth_user response)); cbn.
    + repeat constructor; intros ? ?; discriminate.
    + repeat constructor; try (intros ? ?; discriminate). now apply harmless_error.
  - repeat constructor; try (intros ? ?; discriminate). now apply harmless_error.
Qed.

(** X11: however the provider's functions follow one another and whatever
    the backend answers, [isAuthenticated] is the non-nullness of [user],
    and an error that is set is never the empty text. *)
Theorem provider_state_invariant (state : AuthState) :
  provider_state state ->
  isAuthenticated state = not_null (user state)
  /\ (forall text, error state = Some text -> text <> "").
Proof.
  intros H. change (provider_invariant state).
  induction H as [|state answer _ IH|state answer _ IH|state answer _ IH
                  |state answer _ IH|state answer _ IH].
  - split; [reflexivity | discriminate].
  - apply after_keeps; [exact IH|].
    destruct answer as [response|cause]; cbn.
    + destruct (session_authenticated response
                && truthy_opt truthy_user (session_user response));
        repeat constructor; intros ? ?; discriminate.
    + repeat constructor; intros ? H; try discriminate H.
      injection H as <-. discriminate.
  - apply after_keeps; [exact IH|]. now apply signIn_harmless.
  - apply after_keeps; [exact IH|]. now apply signIn_harmless.
  - apply after_keeps; [exact IH|].
    destruct answer; repeat constructor; intros ? ?; discriminate.
  - apply after_keeps; [exact IH|].
    destruct answer as [response|cause]; cbn.
    + destruct (user state) as [u|]; [destruct (prefs_success response && truthy_user u)|];
        repeat constructor; intros ? ?; discriminate.
    + repeat constructor. apply harmless_error. discriminate.
Qed.

Lemma provider_state_invariant_witness :
  isAuthenticated (after (after initialState (login (Fulfilled welcome)))
                     (register (Failed offline)))
  = not_null (user (after (after initialState (login (Fulfilled welcome)))
                      (register (Failed offline)))).
Proof.
  apply (proj1 (provider_state_invariant _
                  (provider_register _ (Failed offline)
                     (provider_login _ (Fulfilled welcome) provider_initial)))).
Defined.

(** X12: the display name in the user menu is never empty: first and last
    name when both are set, the first name alone when only it is set,
    otherwise the user name, and 'User' when that is empty or nobody is
    signed in. A last name without a first name is not shown. *)
Theorem getDisplayName_cases (user : option User) :
  getDisplayName user <> ""
  /\ (forall u f l,
        user = Some u -> firstName u = Some f -> lastName u = Some l ->
        f <> "" -> l <> "" -> getDisplayName user = f ++ " " ++ l)
  /\ (forall u f,
        user = Some u -> firstName u = Some f -> f <> "" ->
        lastName u = None \/ lastName u = Some "" ->
        getDisplayName user = f)
  /\ (forall u,
        user = Some u -> firstName u = None \/ firstName u = Some "" ->
        getDisplayName user = (if username u =? "" then "User" else username u))
  /\ (user = None -> getDisplayName user = "User").
Proof.
  split; [|split; [|split; [|split]]].
  - unfold getDisplayName.
    destruct (truthy_opt truthy_string (of_user user firstName)) eqn:Hf; simpl.
    + destruct (truthy_opt truthy_string (of_user user lastName)).
      * apply append_nonempty.
      * destruct (of_user user firstName) as [f|]; [|discriminate].
        simpl in *. now apply truthy_string_true.
    + apply or_else_nonempty. discriminate.
  - intros u f l -> Hf Hl Hfn Hln. unfold getDisplayName. simpl. rewrite Hf, Hl. simpl.
    apply truthy_string_true in Hfn, Hln. now rewrite Hfn, Hln.
  - intros u f -> Hf Hfn Hl. unfold getDisplayName. simpl. rewrite Hf. simpl.
    apply truthy_string_true in Hfn. rewrite Hfn.
    now destruct Hl as [-> | ->].
  - intros u -> Hf. unfold getDisplayName. simpl.
    assert (Ht : truthy_opt truthy_string (firstName u) = false)
      by (now destruct Hf as [-> | ->]).
    rewrite Ht. simpl. unfold truthy_string.
    now destruct (username u =? "").
  - now intros ->.
Qed.

Lemma getDisplayName_cases_witness :
  getDisplayName (Some ada) = "Ada Lovelace"
  /\ getDisplayName None = "User".
Proof.
  split.
  - apply (proj1 (proj2 (getDisplayName_cases (Some ada))) ada "Ada" "Lovelace");
      try reflexivity; discriminate.
  - apply (proj2 (proj2 (proj2 (proj2 (getDisplayName_cases None))))). reflexivity.
Defined.

(** X25: while [login] or [register] waits for the backend, [isLoading] is
    false: the SET_ERROR that clears the old error right after SET_LOADING
    lowers the flag again. While [checkSession] waits, [isLoading] is true.
    Neither touches the user before the answer. *)
Theorem loading_while_waiting (state : AuthState) :
  (forall fallback answer,
     exists rest, dispatched (signIn fallback answer) = (signIn_before_await ++ rest)%list)
  /\ fold_left authReducer signIn_before_await state
     = {| user := user state; isAuthenticated := isAuthenticated state;
          isLoading := false; error := None |}
  /\ (forall session,
        exists rest, dispatched (checkSession session) = (checkSession_before_await ++ rest)%list)
  /\ fold_left authReducer checkSession_before_await state
     = {| user := user state; isAuthenticated := isAuthenticated state;
          isLoading := true; error := error state |}.
Proof.
  split; [|split; [|split]].
  - intros fallback answer. unfold signIn.
    destruct answer as [response|cause]; cbn.
    + destruct (auth_success response && truthy_opt truthy_user (auth_user response));
        cbn; eauto.
    + eauto.
  - reflexivity.
  - intros session. unfold checkSession.
    destruct session as [response|cause]; [|cbn; eauto].
    destruct (session_authenticated response
              && truthy_opt truthy_user (session_user response)); cbn; eauto.
  - reflexivity.
Qed.

End AuthSessionProperties.

(* ------------------------------------------------------------------ *)
(** ** The other handlers of App.tsx *)

Section AppHandlerProperties.

Import Js Api App AppHandlers.

Lemma truthy_sortBy_true (k : SortBy) : truthy_sortBy k = true.
Proof. now destruct k. Qed.

Lemma searchOptions_filter_call (render : AppState) (q : string) (f : SearchFilters)
  (k : option SortBy) (flag : bool) :
  searchOptions render
    {| query := q; newFilters := Some f; newSortBy := k; isFilterOperation := flag |}
  = {| so_query := q;
       so_filters := Some f;
       so_sortBy := match k with Some key => Some key | None => sortBy render end;
       so_page := Some 1%Z;
       so_limit := Some 50%Z |}.
Proof.
  unfold searchOptions. simpl. destruct k as [key|]; simpl; [|reflexivity].
  now rewrite truthy_sortBy_true.
Qed.

(** X13: changing the filters or the sort key with no search on only writes
    the cell and sends nothing. With a search on, it sends one search for the
    current query, page 1 and limit 50, with the new filters and the sort key
    of the render (or the filters of the render and the new sort key), raises
    [isFilteringOrSorting] and leaves [isLoading] alone, so the spinner page
    does not replace the results. *)
Theorem filter_and_sort_change (render : AppState) (w : World) :
  (searchQuery render = "" ->
     (forall newFilters,
        handleFiltersChange render newFilters w = update (setFilters newFilters) w)
     /\ (forall newSortBy,
           handleSortChange render newSortBy w = update (setSortBy newSortBy) w))
  /\ (searchQuery render <> "" ->
        (forall newFilters,
           let w' := handleFiltersChange render newFilters w in
           issued w'
           = (issued w
              ++ [SearchIssued
                    {| query := searchQuery render; newFilters := Some newFilters;
                       newSortBy := sortBy render; isFilterOperation := true |}
                    {| so_query := searchQuery render;
                       so_filters := Some newFilters;
                       so_sortBy := sortBy render;
                       so_page := Some 1%Z;
                       so_limit := Some 50%Z |}])%list
           /\ filters (cells w') = newFilters
           /\ isFilteringOrSorting (cells w') = true
           /\ isLoading (cells w') = isLoading (cells w)
           /\ spinner_page (cells w') = spinner_page (cells w)
           /\ products (cells w') = products (cells w))
        /\ (forall newSortBy,
              let w' := handleSortChange render (Some newSortBy) w in
              issued w'
              = (issued w
                 ++ [SearchIssued
                       {| query := searchQuery render; newFilters := Some (filters render);
                          newSortBy := Some newSortBy; isFilterOperation := true |}
                       {| so_query := searchQuery render;
                          so_filters := Some (filters render);
                          so_sortBy := Some newSortBy;
                          so_page := Some 1%Z;
                          so_limit := Some 50%Z |}])%list
              /\ sortBy (cells w') = Some newSortBy
              /\ isFilteringOrSorting (cells w') = true
              /\ isLoading (cells w') = isLoading (cells w)
              /\ spinner_page (cells w') = spinner_page (cells w)
              /\ products (cells w') = products (cells w))).
Proof.
  split.
  - intros Hq. unfold handleFiltersChange, handleSortChange. rewrite Hq. now split.
  - intros Hq. apply truthy_string_true in Hq.
    unfold handleFiltersChange, handleSortChange. rewrite Hq. split.
    + intros f. cbv zeta. unfold handleSearch_call, send, update. cbn [issued cells].
      rewrite searchOptions_filter_call.
      repeat split. now destruct (sortBy render).
    + intros k. cbv zeta. unfold handleSearch_call, send, update. cbn [issued cells].
      rewrite searchOptions_filter_call.
      repeat split.
Qed.

Lemma filter_and_sort_change_witness :
  issued (handleFiltersChange initialState Examples.nike_under_250 start) = []
  /\ isLoading (cells (handleSortChange searching (Some price_desc)
                         {| cells := searching; issued := [] |})) = false.
Proof.
  split.
  - rewrite (proj1 (proj1 (filter_and_sort_change initialState start) eq_refl)).
    reflexivity.
  - assert (Hq : searchQuery searching <> "") by discriminate.
    destruct (proj2 (proj2 (filter_and_sort_change searching
                              {| cells := searching; issued := [] |}) Hq) price_desc)
      as (_ & _ & _ & H & _).
    exact H.
Defined.

(** X14: with a search on, the clear button sends two searches from the same
    render: the first with no filters and the old sort key, the second with
    the old filters and 'relevance'. Right after the click both cells are
    cleared; when both searches are answered, the one answered last writes
    its own filters and sort key back, so the cells end with the old filters
    and 'relevance', or with no filters and the old sort key. *)
Theorem clearAllFilters_outcome (render : AppState) (old : SortBy) :
  searchQuery render <> "" ->
  sortBy render = Some old ->
  let w := clearAllFilters render {| cells := render; issued := [] |} in
  let first := {| query := searchQuery render; newFilters := Some noFilters;
                  newSortBy := Some old; isFilterOperation := true |} in
  let second := {| query := searchQuery render; newFilters := Some (filters render);
                   newSortBy := Some relevance; isFilterOperation := true |} in
  issued w
  = [SearchIssued first
       {| so_query := searchQuery render; so_filters := Some noFilters;
          so_sortBy := Some old; so_page := Some 1%Z; so_limit := Some 50%Z |};
     SearchIssued second
       {| so_query := searchQuery render; so_filters := Some (filters render);
          so_sortBy := Some relevance; so_page := Some 1%Z; so_limit := Some 50%Z |}]
  /\ filters (cells w) = noFilters
  /\ sortBy (cells w) = Some relevance
  /\ (forall r1 r2,
        let s := run (cells w) [Arrive first (Resolved r1); Arrive second (Resolved r2)] in
        filters s = filters render /\ sortBy s = Some relevance /\ products s = r2)
  /\ (forall r1 r2,
        let s := run (cells w) [Arrive second (Resolved r2); Arrive first (Resolved r1)] in
        filters s = noFilters /\ sortBy s = Some old /\ products s = r1).
Proof.
  intros Hq Hs. apply truthy_string_true in Hq. cbv zeta.
  unfold clearAllFilters, FilterAndSort.clearAllFilters, handleFiltersChange,
    handleSortChange.
  rewrite Hq, Hs. unfold handleSearch_call, send, update. cbn [issued cells app].
  rewrite !searchOptions_filter_call.
  split; [reflexivity|]. split; [reflexivity|]. split; [reflexivity|].
  split; intros r1 r2; unfold run; cbn; now rewrite ?truthy_sortBy_true.
Qed.

Lemma clearAllFilters_outcome_witness :
  filters (run (cells (clearAllFilters searching {| cells := searching; issued := [] |}))
             [Arrive {| query := "laptop"; newFilters := Some noFilters;
                        newSortBy := Some price_asc; isFilterOperation := true |}
                     (Resolved Examples.first_results);
              Arrive {| query := "laptop"; newFilters := Some Examples.nike_under_250;
                        newSortBy := Some relevance; isFilterOperation := true |}
                     (Resolved Examples.second_results)])
  = Examples.nike_under_250.
Proof.
  assert (Hq : searchQuery searching <> "") by discriminate.
  destruct (clearAllFilters_outcome searching price_asc Hq eq_refl)
    as (_ & _ & _ & H & _).
  exact (proj1 (H Examples.first_results Examples.second_results)).
Defined.

End AppHandlerProperties.

Section AppMachineProperties.

Import Js Api App AppHandlers.

Lemma detail_begin (s : AppState) (call : SearchCall) :
  detail_cells (handleSearch_begin s call) = detail_cells s.
Proof.
  unfold handleSearch_begin, raise_flag. now destruct (isFilterOperation call).
Qed.

Lemma detail_settle (call : SearchCall) (outcome : Promise (list Product)) (s : AppState) :
  detail_cells (handleSearch_settle call outcome s) = detail_cells s.
Proof.
  unfold handleSearch_settle, lower_flag.
  destruct outcome as [ps|err], (isFilterOperation call); try reflexivity;
    destruct (newFilters call) as [f|], (newSortBy call) as [k|]; simpl;
    try destruct (truthy_sortBy k); reflexivity.
Qed.

Lemma detail_fetch_settle (outcome : Promise (list Product)) (s : AppState) :
  detail_cells (fetchAllProducts_settle outcome s) = detail_cells s.
Proof. now destruct outcome. Qed.

Lemma detail_handleSearch_call (render : AppState) (call : SearchCall) (w : World) :
  detail_cells (cells (handleSearch_call render call w)) = detail_cells (cells w).
Proof. unfold handleSearch_call. simpl. apply detail_begin. Qed.

Lemma detail_act (w : World) (action : Action) :
  (forall product, action <> ProductClick product) -> action <> CloseDetailView ->
  detail_cells (cells (act w action)) = detail_cells (cells w).
Proof.
  intros Hclick Hclose.
  destruct action as [|outcome|q|q|call outcome|f|k| | |p| | |n]; simpl;
    try solve
      [ reflexivity
      | congruence
      | now destruct (Hclick p)
      | apply detail_fetch_settle
      | apply detail_settle
      | apply detail_handleSearch_call
      | unfold handleSearchFromHistory; cbv zeta; now rewrite detail_handleSearch_call
      | unfold clearAllFilters, FilterAndSort.clearAllFilters, handleFiltersChange,
          handleSortChange; cbv zeta;
        destruct (truthy_string (searchQuery (cells w))); [|reflexivity];
        now rewrite !detail_handleSearch_call ].
Qed.

Lemma detail_consistent_act (w : World) (action : Action) :
  detail_consistent (cells w) -> detail_consistent (cells (act w action)).
Proof.
  intros H.
  destruct action as [|outcome|q|q|call outcome|f|k| | |p| | |n];
    try reflexivity;
    match goal with
    | |- detail_consistent (cells (act _ ?a)) =>
        let E := fresh in
        assert (E : detail_cells (cells (act w a)) = detail_cells (cells w))
          by (apply detail_act; [intros ?|]; discriminate);
        pose proof (f_equal fst E) as E1; pose proof (f_equal snd E) as E2;
        unfold detail_cells in E1, E2; cbn [fst snd] in E1, E2;
        unfold detail_consistent; rewrite E1, E2; exact H
    end.
Qed.

(** X15: whatever the user does and whatever the backend answers, from the
    first render on, [isDetailViewOpen] is set exactly when a product is
    selected, and the detail view shows the selected product exactly when
    the spinner page is not up. A click on a product selects it and opens
    the view, closing the view clears both cells, and no search, filter,
    sort, reset or answer writes either cell: those only hide the view, or
    bring it back, through [isLoading]. *)
Theorem detail_view_consistent (actions : list Action) :
  let s := cells (play actions) in
  (isDetailViewOpen s = true <-> exists product, selectedProduct s = Some product)
  /\ detail_view_shown s = (if spinner_page s then None else selectedProduct s)
  /\ (forall product,
        let s' := cells (act (play actions) (ProductClick product)) in
        selectedProduct s' = Some product
        /\ isDetailViewOpen s' = true
        /\ spinner_page s' = spinner_page s
        /\ detail_view_shown s' = (if spinner_page s then None else Some product))
  /\ (let s' := cells (act (play actions) CloseDetailView) in
      selectedProduct s' = None /\ isDetailViewOpen s' = false
      /\ detail_view_shown s' = None)
  /\ (forall action,
        (forall product, action <> ProductClick product) -> action <> CloseDetailView ->
        let s' := cells (act (play actions) action) in
        selectedProduct s' = selectedProduct s
        /\ isDetailViewOpen s' = isDetailViewOpen s
        /\ detail_view_shown s' = (if spinner_page s' then None else selectedProduct s)).
Proof.
  cbv zeta.
  assert (H : detail_consistent (cells (play actions))).
  { unfold play. generalize start, (eq_refl : detail_consistent (cells start)).
    induction actions as [|a actions IH]; intros w Hw; [exact Hw|].
    simpl. apply IH. now apply detail_consistent_act. }
  unfold detail_consistent in H.
  split; [|split; [|split; [|split]]].
  - rewrite H. destruct (selectedProduct (cells (play actions))) as [p|].
    + split; eauto.
    + split; [discriminate | intros [p Hp]; discriminate].
  - unfold detail_view_shown. rewrite H.
    now destruct (selectedProduct (cells (play actions))).
  - intros product. repeat split.
  - split; [reflexivity|]. split; [reflexivity|].
    unfold detail_view_shown. simpl.
    now destruct (isLoading (cells (play actions))).
  - intros action Hclick Hclose.
    pose proof (detail_act (play actions) action Hclick Hclose) as E.
    pose proof (f_equal fst E) as E1. pose proof (f_equal snd E) as E2.
    unfold detail_cells in E1, E2. cbn [fst snd] in E1, E2.
    split; [exact E1|]. split; [exact E2|].
    unfold detail_view_shown. rewrite E1, E2, H.
    now destruct (selectedProduct (cells (play actions))).
Qed.

(** A product of the first list is clicked, then a search is started: the
    product stays selected, and the spinner page hides the view. *)
Lemma detail_view_consistent_witness :
  selectedProduct
    (cells (act (play [Mount; ProductsArrive (Resolved Examples.first_results);
                       ProductClick (transformProduct Examples.laptop)])
              (Search "headphones")))
  = Some (transformProduct Examples.laptop)
  /\ detail_view_shown
       (cells (act (play [Mount; ProductsArrive (Resolved Examples.first_results);
                          ProductClick (transformProduct Examples.laptop)])
                 (Search "headphones")))
     = None
  /\ detail_view_shown
       (cells (play [Mount; ProductsArrive (Resolved Examples.first_results);
                     ProductClick (transformProduct Examples.laptop)]))
     = Some (transformProduct Examples.laptop).
Proof.
  assert (Hc : forall product, Search "headphones" <> ProductClick product)
    by discriminate.
  assert (Hd : Search "headphones" <> CloseDetailView) by discriminate.
  destruct (proj2 (proj2 (proj2 (proj2
              (detail_view_consistent
                 [Mount; ProductsArrive (Resolved Examples.first_results);
                  ProductClick (transformProduct Examples.laptop)]))))
              (Search "headphones") Hc Hd) as (H1 & _ & H3).
  split; [rewrite H1; reflexivity|]. split; [rewrite H3; reflexivity|].
  reflexivity.
Defined.

(** X16: [resetSearch] clears the query, the filters and the sort key and
    asks for the bare /products, whatever the filters were, with the spinner
    page up. When the answer comes the spinner page goes: a list replaces
    the products; a failure leaves the products of the old search under the
    cleared query and opens the snackbar with the text of
    [getErrorMessage]. *)
Theorem resetSearch_outcome (w : World) :
  let w' := resetSearch w in
  issued w' = (issued w ++ [ProductsIssued "/products"])%list
  /\ searchQuery (cells w') = ""
  /\ filters (cells w') = noFilters
  /\ sortBy (cells w') = Some relevance
  /\ spinner_page (cells w') = true
  /\ products (cells w') = products (cells w)
  /\ (forall ps,
        let s := fetchAllProducts_settle (Resolved ps) (cells w') in
        products s = ps /\ spinner_page s = false /\ snackbar_open s = false
        /\ searchQuery s = "" /\ filters s = noFilters /\ sortBy s = Some relevance)
  /\ (forall err,
        let s := fetchAllProducts_settle (Rejected err) (cells w') in
        products s = products (cells w) /\ spinner_page s = false
        /\ error s = Some (getErrorMessage err) /\ snackbar_open s = true
        /\ searchQuery s = "").
Proof.
  cbv zeta. repeat split.
  unfold snackbar_open. simpl. now rewrite getErrorMessage_truthy.
Qed.

(** X17: a search from the search bar keeps the filters and the sort key
    that are set: it sends them with the query, page 1 and limit 50, and
    when the answer comes the two cells are as before, the query is the new
    one, and the spinner page is gone. *)
Theorem plain_search_keeps_filters (api : Instance) (s : AppState) (query : string) :
  searchOptions s (plain_search query)
  = {| so_query := query; so_filters := Some (filters s); so_sortBy := sortBy s;
       so_page := Some 1%Z; so_limit := Some 50%Z |}
  /\ spinner_page (handleSearch_begin s (plain_search query)) = true
  /\ filters (handleSearch api s (plain_search query)) = filters s
  /\ sortBy (handleSearch api s (plain_search query)) = sortBy s
  /\ searchQuery (handleSearch api s (plain_search query)) = query
  /\ spinner_page (handleSearch api s (plain_search query)) = false
  /\ isFilteringOrSorting (handleSearch api s (plain_search query))
     = isFilteringOrSorting s.
Proof.
  unfold handleSearch.
  destruct (aiSearch api (searchOptions s (plain_search query))); repeat split.
Qed.



End AppMachineProperties.

(* ------------------------------------------------------------------ *)
(** ** components/FilterAndSort.tsx *)

Section FilterAndSortProperties.

Import Js Api FilterAndSort.

Lemma get_put_same (key : FilterKey) (value : option (value_type key))
  (filters : SearchFilters) :
  get_key key (put_key key value filters) = value.
Proof. now destruct key. Qed.

Lemma get_put_other (key other : FilterKey) (value : option (value_type key))
  (filters : SearchFilters) :
  other <> key -> get_key other (put_key key value filters) = get_key other filters.
Proof. destruct key, other; intros H; try reflexivity; now destruct H. Qed.

Lemma put_put (key : FilterKey) (v1 v2 : option (value_type key)) (filters : SearchFilters) :
  put_key key v2 (put_key key v1 filters) = put_key key v2 filters.
Proof. now destruct key. Qed.

(** X19: [handleFilterChange] hands on a copy of the filters in which the
    key holds the new value, or is absent when the value is [undefined] or
    the empty string, and every other key, [attributes] included, is as
    before; a second change of the same key overrides the first. *)
Theorem handleFilterChange_lookup {W : Type} (onFiltersChange : SearchFilters -> W -> W)
  (filters : SearchFilters) (key : FilterKey) (value : option (value_type key)) :
  handleFilterChange onFiltersChange filters key value
  = onFiltersChange (changed filters key value)
  /\ get_key key (changed filters key value)
     = match value with
       | Some v => if is_empty_string key v then None else Some v
       | None => None
       end
  /\ (forall other, other <> key ->
        get_key other (changed filters key value) = get_key other filters)
  /\ attributes (changed filters key value) = attributes filters
  /\ (forall later, changed (changed filters key value) key later = changed filters key later).
Proof.
  split; [reflexivity|]. unfold changed. split; [|split; [|split]].
  - destruct value as [v|]; [destruct (is_empty_string key v)|]; apply get_put_same.
  - intros other Hne.
    destruct value as [v|]; [destruct (is_empty_string key v)|]; now apply get_put_other.
  - destruct value as [v|]; [destruct (is_empty_string key v)|]; now destruct key.
  - intros later.
    destruct value as [v|]; [destruct (is_empty_string key v)|];
      (destruct later as [l|]; [destruct (is_empty_string key l)|]); apply put_put.
Qed.

Lemma handleFilterChange_lookup_witness :
  get_key key_category
    (changed Examples.nike_under_250 key_brand (Some ""))
  = get_key key_category Examples.nike_under_250
  /\ get_key key_brand (changed Examples.nike_under_250 key_brand (Some "")) = None.
Proof.
  split.
  - apply (proj1 (proj2 (proj2
             (handleFilterChange_lookup (fun _ (w : unit) => w)
                Examples.nike_under_250 key_brand (Some ""))))).
    discriminate.
  - exact (proj1 (proj2
             (handleFilterChange_lookup (fun _ (w : unit) => w)
                Examples.nike_under_250 key_brand (Some "")))).
Defined.

Lemma length_append_if {A : Type} (t : A -> bool) (render : A -> string) (name : string)
  (field : option A) :
  length (append_if t render name field []) = chip (truthy_opt t field).
Proof.
  unfold append_if, append. destruct field as [a|]; [|reflexivity].
  simpl. now destruct (t a).
Qed.

(** X20: the chips under 'Active Filters' are the filters that are truthy,
    which are exactly the filter parameters [getAllProducts] would send; the
    count on the Filters button also counts a price bound of 0 and the
    attributes, so it is never less than the number of chips, at most 5, and
    equal to it exactly when no bound is 0 and there are no attributes. With
    the sort key on 'relevance' the clear button is shown exactly when that
    count is not 0. *)
Theorem active_filters_counts (filters : SearchFilters) :
  chips filters <= getActiveFilterCount filters
  /\ getActiveFilterCount filters <= 5
  /\ length (getAllProducts_params (Some filters) None) = chips filters
  /\ (getActiveFilterCount filters = chips filters
      <-> minPrice filters <> Some 0%Z /\ maxPrice filters <> Some 0%Z
          /\ attributes filters = None)
  /\ (clear_shown filters (Some relevance) = false <-> getActiveFilterCount filters = 0).
Proof.
  assert (Hs : forall o : option string,
             chip (truthy_opt truthy_string o) = counts_string o).
  { intros [s|]; [|reflexivity]. simpl. unfold truthy_string. now destruct (s =? ""). }
  assert (Hn : forall o : option number,
             chip (truthy_opt truthy_number o) <= counts o
             /\ counts o <= 1
             /\ (counts o = chip (truthy_opt truthy_number o) <-> o <> Some 0%Z)).
  { intros [n|]; simpl.
    - unfold truthy_number. destruct (Z.eqb_spec n 0) as [->|Hne]; simpl.
      + repeat split; try lia. intros H. now destruct H.
      + repeat split; try lia. congruence.
    - repeat split; try lia. discriminate. }
  assert (Hc : forall o : option string, counts_string o <= 1).
  { intros [s|]; simpl; [destruct (s =? "")|]; lia. }
  assert (Ha : forall o : option JsonRecord, counts o <= 1 /\ (counts o = 0 <-> o = None)).
  { intros [a|]; simpl; repeat split; try lia; congruence. }
  unfold chips, getActiveFilterCount. rewrite !Hs.
  destruct (Hn (minPrice filters)) as (Hlo1 & Hlo2 & Hlo3).
  destruct (Hn (maxPrice filters)) as (Hhi1 & Hhi2 & Hhi3).
  destruct (Ha (attributes filters)) as (Hat1 & Hat2).
  pose proof (Hc (category filters)). pose proof (Hc (brand filters)).
  split; [lia|]. split; [lia|]. split; [|split].
  - rewrite getAllProducts_params_eq, !length_app, !length_append_if, !Hs.
    simpl. lia.
  - rewrite <- Hlo3, <- Hhi3, <- Hat2. lia.
  - unfold clear_shown, getActiveFilterCount. simpl. rewrite orb_false_r.
    rewrite Nat.ltb_ge. lia.
Qed.

(** A lower bound of 0 is counted on the button and has no chip. *)
Lemma active_filters_counts_witness :
  getActiveFilterCount Examples.nike_under_250 = chips Examples.nike_under_250
  /\ chips Examples.free_and_up < getActiveFilterCount Examples.free_and_up.
Proof.
  split.
  - apply (proj1 (proj2 (proj2 (proj2 (active_filters_counts Examples.nike_under_250))))).
    repeat split; discriminate.
  - pose proof (proj1 (active_filters_counts Examples.free_and_up)) as Hle.
    cbv in Hle |- *. lia.
Defined.

End FilterAndSortProperties.

(* ------------------------------------------------------------------ *)
(** ** components/SearchBar.tsx: what a submit passes on *)

Section SearchBarSubmitProperties.

Import SearchBar.
Local Open Scope list_scope.

Lemma trimStart_keeps_last (l : jsstring) (c : code_unit) :
  isWhiteSpace c = false -> exists x, trimStart (l ++ [c]) = x ++ [c].
Proof.
  intros Hc. induction l as [|d l IH]; simpl.
  - rewrite Hc. now exists [].
  - destruct (isWhiteSpace d); [exact IH|]. now exists (d :: l).
Qed.

Lemma trimStart_fixed (c : code_unit) (rest : jsstring) :
  isWhiteSpace c = false -> trimStart (c :: rest) = c :: rest.
Proof. intros Hc. simpl. now rewrite Hc. Qed.

(** The two ends of a trimmed string are not whitespace. *)
Lemma trim_first (s : jsstring) :
  trim s <> [] -> exists first rest, trim s = first :: rest /\ isWhiteSpace first = false.
Proof.
  unfold trim, trimEnd. intros Hne.
  destruct (trimStart s) as [|c r] eqn:Hs; [now destruct Hne|].
  pose proof (trimStart_head _ _ _ Hs) as Hc.
  simpl rev at 2.
  destruct (trimStart_keeps_last (rev r) c Hc) as [x ->].
  rewrite rev_app_distr. simpl. eauto.
Qed.

Lemma trim_last (s : jsstring) :
  trim s <> [] -> exists front last, trim s = front ++ [last] /\ isWhiteSpace last = false.
Proof.
  unfold trim, trimEnd. intros Hne.
  destruct (trimStart (rev (trimStart s))) as [|d u] eqn:Hu; [now destruct Hne|].
  apply trimStart_head in Hu. simpl. eauto.
Qed.

Lemma trim_fixed (q : jsstring) :
  (exists first rest, q = first :: rest /\ isWhiteSpace first = false) ->
  (exists front last, q = front ++ [last] /\ isWhiteSpace last = false) ->
  trim q = q.
Proof.
  intros (first & rest & Hq & Hf) (front & last & Hq' & Hl).
  assert (H1 : trimStart q = q).
  { rewrite Hq. now apply trimStart_fixed. }
  assert (H2 : trimStart (rev q) = rev q).
  { rewrite Hq', rev_app_distr. now apply trimStart_fixed. }
  unfold trim, trimEnd. now rewrite H1, H2, rev_involutive.
Qed.

(** X21: what a submit passes to [onSearch] is never empty and neither
    starts nor ends with whitespace; trimming it again changes nothing, so
    submitting the passed text passes the same text. *)
Theorem handleSubmit_argument (state : State) (q : jsstring) :
  In q (handleSubmit state) ->
  q = trim (query state)
  /\ q <> []
  /\ (exists first rest, q = first :: rest /\ isWhiteSpace first = false)
  /\ (exists front last, q = front ++ [last] /\ isWhiteSpace last = false)
  /\ trim q = q
  /\ handleSubmit {| query := q; focused := focused state |} = [q].
Proof.
  unfold handleSubmit.
  destruct (truthy (trim (query state))) eqn:Ht; [|intros []].
  intros [<- | []]. apply truthy_true in Ht.
  pose proof (trim_first _ Ht) as Hfirst. pose proof (trim_last _ Ht) as Hlast.
  pose proof (trim_fixed _ Hfirst Hlast) as Hfix.
  repeat split; try assumption.
  simpl. rewrite Hfix. apply truthy_true in Ht. now rewrite Ht.
Qed.

Lemma handleSubmit_argument_witness :
  trim [116; 118]%N = [116; 118]%N.
Proof.
  apply (handleSubmit_argument {| query := [32; 32; 116; 118; 10]%N; focused := true |}
           [116; 118]%N).
  now left.
Defined.

End SearchBarSubmitProperties.

(* ------------------------------------------------------------------ *)
(** ** components/RegisterForm.tsx *)

Section RegisterFormProperties.

Import SearchBar AuthProvider RegisterForm.
Local Open Scope list_scope.

Lemma plain_at : plain 64%N = false.
Proof. reflexivity. Qed.

Lemma plain_dot : plain 46%N = true.
Proof. reflexivity. Qed.

Lemma span_plain_spec (s : jsstring) :
  s = fst (span_plain s) ++ snd (span_plain s)
  /\ forallb plain (fst (span_plain s)) = true
  /\ match snd (span_plain s) with
     | [] => True
     | c :: _ => plain c = false
     end.
Proof.
  induction s as [|c s (IH1 & IH2 & IH3)]; simpl; [now repeat split|].
  destruct (plain c) eqn:Hc; simpl.
  - destruct (span_plain s) as [a b]. simpl in *. rewrite Hc, IH2.
    repeat split; [congruence | exact IH3].
  - now repeat split.
Qed.

Lemma span_plain_app (a rest : jsstring) :
  forallb plain a = true ->
  match rest with [] => True | c :: _ => plain c = false end ->
  span_plain (a ++ rest) = (a, rest).
Proof.
  intros Ha Hr. induction a as [|x a IH]; simpl in *.
  - destruct rest as [|c rest]; [reflexivity|]. simpl. now rewrite Hr.
  - apply andb_true_iff in Ha as [Hx Ha]. rewrite Hx, (IH Ha). reflexivity.
Qed.

Lemma inner_dot_spec (d : jsstring) :
  inner_dot d = true
  <-> exists b c, d = b ++ [46%N] ++ c /\ b <> [] /\ c <> [].
Proof.
  unfold inner_dot. split.
  - destruct d as [|x t]; [discriminate|].
    intros H. apply existsb_exists in H as (y & Hin & Hy).
    apply N.eqb_eq in Hy. subst y.
    apply in_split in Hin as (t1 & t2 & Ht).
    assert (Hne : t <> []) by (intros ->; destruct t1; discriminate).
    destruct (exists_last Hne) as (front & z & Hz).
    rewrite Hz, removelast_last in Ht. subst front.
    exists (x :: t1), (t2 ++ [z]). repeat split.
    + rewrite Hz. simpl. now rewrite <- !app_assoc.
    + discriminate.
    + destruct t2; discriminate.
  - intros (b & c & -> & Hb & Hc).
    destruct b as [|x b]; [now destruct Hb|]. simpl.
    rewrite removelast_app by discriminate.
    rewrite existsb_app. simpl.
    destruct c as [|y c]; [now destruct Hc|].
    simpl. now rewrite orb_true_r.
Qed.

Lemma emailRegex_test_language (s : jsstring) :
  emailRegex_test s = true <-> emailRegex_language s.
Proof.
  unfold emailRegex_test, emailRegex_language. split.
  - destruct (span_plain_spec s) as (Hs & Ha & _).
    destruct (span_plain s) as [a rest]. simpl in *.
    destruct a as [|x a]; [discriminate|].
    destruct rest as [|y d]; [discriminate|].
    intros H. apply andb_true_iff in H as [H Hdot].
    apply andb_true_iff in H as [Hy Hd]. apply N.eqb_eq in Hy. subst y.
    apply inner_dot_spec in Hdot as (b & c & -> & Hb & Hc).
    rewrite !forallb_app in Hd. apply andb_true_iff in Hd as [Hpb Hpc].
    apply andb_true_iff in Hpc as [_ Hpc].
    exists (x :: a), b, c. repeat split; try assumption; discriminate.
  - intros (a & b & c & -> & Ha & Hb & Hc & Hpa & Hpb & Hpc).
    rewrite (span_plain_app a (([64%N] ++ b ++ [46%N] ++ c))) by (assumption || reflexivity).
    destruct a as [|x a]; [now destruct Ha|].
    change ([64%N] ++ b ++ [46%N] ++ c) with (64%N :: (b ++ [46%N] ++ c)).
    cbv iota beta. rewrite N.eqb_refl, forallb_app, Hpb. simpl.
    rewrite Hpc. simpl.
    apply inner_dot_spec. now exists b, c.
Qed.

Lemma jsstring_eqb_eq (a b : jsstring) : jsstring_eqb a b = true <-> a = b.
Proof.
  revert b. induction a as [|x a IH]; intros [|y b]; simpl; try (split; congruence).
  rewrite andb_true_iff, N.eqb_eq, IH.
  split; [intros [-> ->]; reflexivity | intros H; injection H; auto].
Qed.

Lemma validateForm_none_iff (state : State) :
  validateForm state = None
  <-> 3 <= length (username (formData state))
      /\ 6 <= length (password (formData state))
      /\ password (formData state) = confirmPassword state
      /\ emailRegex_language (email (formData state)).
Proof.
  unfold validateForm. cbv zeta.
  rewrite <- emailRegex_test_language, <- jsstring_eqb_eq.
  destruct (formData state) as [u e p f l]. simpl.
  destruct (truthy u) eqn:Hu; simpl.
  2:{ destruct u; [|discriminate]. simpl. split; [discriminate | intros [H _]; lia]. }
  destruct (truthy e) eqn:He; simpl.
  2:{ destruct e; [|discriminate]. split; [discriminate|].
      intros (_ & _ & _ & H). discriminate. }
  destruct (truthy p) eqn:Hp; simpl.
  2:{ destruct p; [|discriminate]. simpl. split; [discriminate | intros (_ & H & _); lia]. }
  destruct (length u <? 3)%nat eqn:Hlu.
  { apply Nat.ltb_lt in Hlu. split; [discriminate | intros [H _]; lia]. }
  destruct (length p <? 6)%nat eqn:Hlp.
  { apply Nat.ltb_lt in Hlp. split; [discriminate | intros (_ & H & _); lia]. }
  apply Nat.ltb_ge in Hlu, Hlp.
  destruct (jsstring_eqb p (confirmPassword state)); simpl.
  2:{ split; [discriminate | intros (_ & _ & H & _); discriminate]. }
  destruct (emailRegex_test e); simpl.
  - now repeat split.
  - split; [discriminate | intros (_ & _ & _ & H); discriminate].
Qed.

(** X22: the email check of the form accepts exactly the strings that read
    as three non-empty runs without whitespace or at sign, around one at
    sign and a dot; and [validateForm] passes exactly when the user name has
    at least 3 code units, the password at least 6 and equals its
    confirmation, and the email passes that check. *)
Theorem validateForm_passes (state : State) :
  (forall s, emailRegex_test s = true <-> emailRegex_language s)
  /\ (validateForm state = None
      <-> 3 <= length (username (formData state))
          /\ 6 <= length (password (formData state))
          /\ password (formData state) = confirmPassword state
          /\ emailRegex_language (email (formData state))).
Proof.
  split; [apply emailRegex_test_language | apply validateForm_none_iff].
Qed.

Lemma validateForm_passes_witness :
  validateForm ada_form = None /\ emailRegex_test ada_email = true.
Proof.
  assert (H : emailRegex_language ada_email).
  { exists [97; 100; 97]%N, [101; 120; 97; 109; 112; 108; 101]%N, [99; 111; 109]%N.
    repeat split; discriminate. }
  split.
  - apply (proj2 (validateForm_passes ada_form)).
    repeat split; try exact H; simpl; lia.
  - apply (proj1 (validateForm_passes ada_form) ada_email). exact H.
Defined.

(** X23: a submit calls [register] only for a form that passes, and then
    with the user name, the email and the password as typed (at least 3 and
    6 code units long) and with a first or last name that is either absent or
    not empty; for a form that does not pass it calls nothing, keeps what was
    typed and shows the reason. When [register] rejects the form keeps what
    was typed and stays open; when it resolves the form is emptied and
    closed. *)
Theorem handleSubmit_register (state : State) :
  (forall data,
     snd (handleSubmit_call state) = Some data ->
     validateForm state = None
     /\ data = submitData (formData state)
     /\ 3 <= length (sd_username data) /\ 6 <= length (sd_password data)
     /\ sd_password data = confirmPassword state
     /\ sd_firstName data <> Some [] /\ sd_lastName data <> Some []
     /\ localError (fst (handleSubmit_call state)) = None)
  /\ (forall text,
        validateForm state = Some text ->
        snd (handleSubmit_call state) = None
        /\ localError (fst (handleSubmit_call state)) = Some text
        /\ formData (fst (handleSubmit_call state)) = formData state
        /\ confirmPassword (fst (handleSubmit_call state)) = confirmPassword state)
  /\ (forall cause, handleSubmit_settle (Failed cause) state = (state, false))
  /\ (forall done,
        formData (fst (handleSubmit_settle (Fulfilled done) state)) = emptyForm
        /\ confirmPassword (fst (handleSubmit_settle (Fulfilled done) state)) = []
        /\ snd (handleSubmit_settle (Fulfilled done) state) = true).
Proof.
  split; [|split; [|split]].
  - intros data. unfold handleSubmit_call.
    destruct (validateForm state) as [text|] eqn:Hv; [discriminate|].
    simpl. intros H. injection H as <-.
    apply validateForm_none_iff in Hv as (Hu & Hp & Hc & _).
    repeat split; try assumption.
    + simpl. unfold or_undefined. now destruct (firstName (formData state)).
    + simpl. unfold or_undefined. now destruct (lastName (formData state)).
  - intros text Hv. unfold handleSubmit_call. rewrite Hv. now repeat split.
  - reflexivity.
  - now repeat split.
Qed.

Lemma handleSubmit_register_witness :
  sd_firstName (submitData (formData ada_form)) = Some [65; 100; 97]%N
  /\ sd_lastName (submitData (formData ada_form)) = None
  /\ 6 <= length (sd_password (submitData (formData ada_form))).
Proof.
  destruct (proj1 (handleSubmit_register ada_form) (submitData (formData ada_form)) eq_refl)
    as (_ & _ & _ & Hp & _).
  repeat split. exact Hp.
Defined.

End RegisterFormProperties.

(* ------------------------------------------------------------------ *)
(** ** components/PopularSearches.tsx *)

Section PopularSearchesProperties.

Import Js SearchHistoryApi PopularSearches.

(** X24: with an initial number of at most 50, the panel never asks for
    more than 50 popular searches, and the period is one of 7, 30 and 90
    days, whatever is selected and however often the button under the list
    is clicked; clicks on the button add ten each up to the cap of 50, where
    a click changes nothing. The request carries both numbers in decimal. *)
Theorem showMore_limit (maxItems : option number) (state : State) :
  (reachable maxItems state -> (with_default 10 maxItems <= 50)%Z ->
     (limit state <= 50)%Z /\ In (period state) offered_periods)
  /\ (forall clicks, clicks <> 0%nat ->
        limit (Nat.iter clicks showMore state)
        = Z.min (limit state + 10 * Z.of_nat clicks) 50)
  /\ (limit state = 50%Z -> showMore state = state)
  /\ request state
     = "/search/popular?limit=" ++ number_toString (limit state)
       ++ "&days=" ++ number_toString (period state)
  /\ number_parse (number_toString (limit state)) = Some (limit state).
Proof.
  split; [|split; [|split; [|split]]].
  - intros Hr Hm.
    induction Hr as [|s Hr [IHl IHp]|s days Hr [IHl IHp] Hd|s n Hr [IHl IHp] Hn
                     |s items Hr [IHl IHp]]; simpl.
    + split; [exact Hm | simpl; auto].
    + split; [lia | exact IHp].
    + split; [exact IHl | exact Hd].
    + split; [|exact IHp].
      simpl in Hn. destruct Hn as [<- | [<- | [<- | [<- | []]]]]; lia.
    + now split.
  - intros clicks Hne.
    assert (Hl : limit (Nat.iter clicks showMore state)
                 = match clicks with
                   | O => limit state
                   | S _ => Z.min (limit state + 10 * Z.of_nat clicks) 50
                   end).
    { clear Hne. induction clicks as [|n IH]; [reflexivity|].
      change (limit (Nat.iter (S n) showMore state))
        with (Z.min (limit (Nat.iter n showMore state) + 10) 50).
      rewrite IH. destruct n; lia. }
    rewrite Hl. destruct clicks; [now destruct Hne | reflexivity].
  - intros H50. destruct state as [ps p l]. simpl in H50. subst l. reflexivity.
  - reflexivity.
  - apply number_toString_decimal.
Qed.

Lemma showMore_limit_witness :
  limit (Nat.iter 5 showMore (initialState None)) = 50%Z
  /\ (limit (selectLimit 20%Z (showMore (initialState None))) <= 50)%Z.
Proof.
  split.
  - rewrite (proj1 (proj2 (showMore_limit None (initialState None))));
      [reflexivity | discriminate].
  - apply (proj1 (showMore_limit None (selectLimit 20%Z (showMore (initialState None))))).
    + apply reachable_selectLimit; [apply reachable_showMore, reachable_initial|].
      simpl. auto.
    + simpl. lia.
Defined.

End PopularSearchesProperties.
